(** * Two chat pipelines in front of a local model server

    A shallow embedding of [alice_paralegal_pipeline.py] (Tesseract OCR, then a
    reasoning model) and [legal_vision_pipeline.py] (a vision model, then a
    reasoning model), and the properties of their content extractor, of the
    two Stage-1 strategies, of the prompt builder and of the streaming call.

    Python values are an inductive type of JSON-like data, exceptions are a
    [result] type with the class of the exception, the libraries the code
    calls (base64, json, requests, PIL/pytesseract) are the fields of a
    [Runtime] record that every function takes, and what a call does
    (fragments yielded, HTTP requests, OCR runs) is a list of events written
    next to the state of the [Pipeline] object. *)

From Stdlib Require Import List String Ascii ZArith QArith Bool Lia.
From Stdlib.Strings Require Import Byte.
From Stdlib Require Import DecimalString.
Import ListNotations.
Open Scope list_scope.
Open Scope string_scope.

Set Warnings "-register-all".

(* ------------------------------------------------------------------ *)
(** ** Python values *)

(** The values a decoded JSON document (a chat message, a line of the
    response) is made of. A dict is an association list looked up from the
    front; a float is the rational it stands for. *)
Inductive PyVal : Type :=
| PNone
| PBool (b : bool)
| PInt (z : Z)
| PFloat (q : Q)
| PStr (s : string)
| PList (items : list PyVal)
| PDict (entries : list (string * PyVal)).

Definition bytes := list byte.

(** [bool(v)]. *)
Definition truthy (v : PyVal) : bool :=
  match v with
  | PNone => false
  | PBool b => b
  | PInt z => negb (z =? 0)%Z
  | PFloat q => negb (Qeq_bool q 0)
  | PStr EmptyString => false
  | PStr _ => true
  | PList [] => false
  | PList _ => true
  | PDict [] => false
  | PDict _ => true
  end.

(** [type(v).__name__]. *)
Definition type_name (v : PyVal) : string :=
  match v with
  | PNone => "NoneType"
  | PBool _ => "bool"
  | PInt _ => "int"
  | PFloat _ => "float"
  | PStr _ => "str"
  | PList _ => "list"
  | PDict _ => "dict"
  end.

(* ------------------------------------------------------------------ *)
(** ** Exceptions *)

Inductive exn_class : Type :=
| Exception
| AttributeError
| TypeError
| IndexError
| KeyError
| ValueError
| BinasciiError        (* binascii.Error, a ValueError *)
| JSONDecodeError      (* json.JSONDecodeError, a ValueError *)
| RequestException.    (* requests.exceptions.*, HTTPError among them *)

Record exn : Type := MkExn { exn_cls : exn_class; exn_msg : string }.

Definition exn_class_eqb (a b : exn_class) : bool :=
  match a, b with
  | Exception, Exception | AttributeError, AttributeError
  | TypeError, TypeError | IndexError, IndexError | KeyError, KeyError
  | ValueError, ValueError | BinasciiError, BinasciiError
  | JSONDecodeError, JSONDecodeError
  | RequestException, RequestException => true
  | _, _ => false
  end.

(** [issubclass(c, d)]. *)
Definition subclass (c d : exn_class) : bool :=
  match d with
  | Exception => true
  | ValueError =>
      match c with
      | ValueError | BinasciiError | JSONDecodeError => true
      | _ => false
      end
  | _ => exn_class_eqb c d
  end.

(** Whether [except (d1, d2, ...)] takes the exception. *)
Definition caught_by (handled : list exn_class) (e : exn) : bool :=
  existsb (subclass (exn_cls e)) handled.

Inductive result (A : Type) : Type :=
| Ok (a : A)
| Raise (e : exn).
Arguments Ok {A} a.
Arguments Raise {A} e.

Definition rbind {A B} (r : result A) (k : A -> result B) : result B :=
  match r with
  | Ok a => k a
  | Raise e => Raise e
  end.

Notation "x <- r ;; k" := (rbind r (fun x => k))
  (at level 61, r at next level, right associativity).

Definition is_ok {A} (r : result A) : bool :=
  match r with Ok _ => true | Raise _ => false end.

(** [try: body / except handled: handler]. *)
Definition try_except {A} (body : result A) (handled : list exn_class)
    (handler : exn -> result A) : result A :=
  match body with
  | Ok a => Ok a
  | Raise e => if caught_by handled e then handler e else Raise e
  end.

(** The loop [for x in xs: acc = body(acc, x)], left at the first exception. *)
Fixpoint for_each {A S} (body : S -> A -> result S) (xs : list A) (acc : S)
    : result S :=
  match xs with
  | [] => Ok acc
  | x :: rest => acc' <- body acc x ;; for_each body rest acc'
  end.

(* ------------------------------------------------------------------ *)
(** ** Strings, lists and dicts as the code uses them *)

Definition nl : string := String (ascii_of_nat 10) EmptyString.
Definition comma : ascii := ascii_of_nat 44.

(** [s.startswith(p)]. *)
Definition startswith (p s : string) : bool := String.prefix p s.

(** [sub in s] for two strings. *)
Fixpoint str_contains (sub s : string) : bool :=
  String.prefix sub s ||
  match s with
  | EmptyString => false
  | String _ s' => str_contains sub s'
  end.

(** [s.split(sep)] and [s.split(sep, n)] for a one-character separator:
    [maxsplit = None] splits at every separator, [Some n] at the first [n]. *)
Fixpoint py_split (sep : ascii) (maxsplit : option nat) (s : string)
    : list string :=
  match s with
  | EmptyString => [EmptyString]
  | String c s' =>
      let here := Ascii.eqb c sep in
      match here, maxsplit with
      | true, None => EmptyString :: py_split sep None s'
      | true, Some (S n) => EmptyString :: py_split sep (Some n) s'
      | _, _ =>
          match py_split sep maxsplit s' with
          | [] => [String c EmptyString]
          | piece :: pieces => String c piece :: pieces
          end
      end
  end.

(** [xs[i]] on a list. *)
Definition list_index {A} (xs : list A) (i : nat) : result A :=
  match nth_error xs i with
  | Some x => Ok x
  | None => Raise (MkExn IndexError "list index out of range")
  end.

Definition no_attribute {A} (v : PyVal) (attr : string) : result A :=
  Raise (MkExn AttributeError
           ("'" ++ type_name v ++ "' object has no attribute '" ++ attr ++ "'")).

Fixpoint dict_lookup (key : string) (entries : list (string * PyVal))
    : option PyVal :=
  match entries with
  | [] => None
  | (k, v) :: rest => if String.eqb k key then Some v else dict_lookup key rest
  end.

(** [v.get(key, default)]: only a dict has the method. *)
Definition py_get (v : PyVal) (key : string) (default : PyVal) : result PyVal :=
  match v with
  | PDict entries =>
      Ok (match dict_lookup key entries with Some x => x | None => default end)
  | _ => no_attribute v "get"
  end.

(** [v == "lit"] for a string literal. *)
Definition eq_str (v : PyVal) (lit : string) : bool :=
  match v with
  | PStr s => String.eqb s lit
  | _ => false
  end.

(** [v.startswith(p)]: only a string has the method. *)
Definition py_startswith (v : PyVal) (p : string) : result bool :=
  match v with
  | PStr s => Ok (startswith p s)
  | _ => no_attribute v "startswith"
  end.

(** [str(i)] for an index. *)
Definition str_of_nat (i : nat) : string :=
  NilEmpty.string_of_uint (Nat.to_uint i).

(** [sep.join(parts)]: every part has to be a string; the error names the
    position of the first part that is not. *)
Fixpoint strs_of_from (i : nat) (parts : list PyVal) : result (list string) :=
  match parts with
  | [] => Ok []
  | PStr s :: rest => ss <- strs_of_from (S i) rest ;; Ok (s :: ss)
  | v :: _ =>
      Raise (MkExn TypeError
               ("sequence item " ++ str_of_nat i ++ ": expected str instance, "
                ++ type_name v ++ " found"))
  end.

Definition strs_of (parts : list PyVal) : result (list string) :=
  strs_of_from 0 parts.

Definition py_join (sep : string) (parts : list PyVal) : result string :=
  ss <- strs_of parts ;; Ok (String.concat sep ss).

(** ["response" in data]: a key of a dict, a substring of a string, an
    element of a list; nothing else is a container. *)
Definition py_in (key : string) (data : PyVal) : result bool :=
  match data with
  | PDict entries =>
      Ok (match dict_lookup key entries with Some _ => true | None => false end)
  | PStr s => Ok (str_contains key s)
  | PList items => Ok (existsb (fun v => eq_str v key) items)
  | _ =>
      Raise (MkExn TypeError
               ("argument of type '" ++ type_name data ++ "' is not iterable"))
  end.

(** [data[key]] for a string key. *)
Definition py_getitem (data : PyVal) (key : string) : result PyVal :=
  match data with
  | PDict entries =>
      match dict_lookup key entries with
      | Some v => Ok v
      | None => Raise (MkExn KeyError ("'" ++ key ++ "'"))
      end
  | PStr _ => Raise (MkExn TypeError "string indices must be integers, not 'str'")
  | PList _ => Raise (MkExn TypeError "list indices must be integers or slices, not str")
  | _ =>
      Raise (MkExn TypeError
               ("'" ++ type_name data ++ "' object is not subscriptable"))
  end.

(** [v.split(sep, n)]: only a string has the method. *)
Definition py_str_split (v : PyVal) (sep : ascii) (maxsplit : option nat)
    : result (list string) :=
  match v with
  | PStr s => Ok (py_split sep maxsplit s)
  | _ => no_attribute v "split"
  end.

(** A Python [str] is held here as its UTF-8 encoding. The white space
    [str.strip()] removes is the code points for which [str.isspace] holds:
    U+0009-000D, U+001C-0020, U+0085, U+00A0, U+1680, U+2000-200A, U+2028,
    U+2029, U+202F, U+205F and U+3000. [is_space] is those of one byte,
    [is_space2] those of two bytes (C2 85, C2 A0), [is_space3] those of
    three (E1 9A 80, E2 80 80-8A, E2 80 A8, E2 80 A9, E2 80 AF, E2 81 9F,
    E3 80 80). *)
Definition is_space (c : ascii) : bool :=
  let n := nat_of_ascii c in
  ((9 <=? n) && (n <=? 13) || (28 <=? n) && (n <=? 32))%nat.

Definition is_space2 (c1 c2 : ascii) : bool :=
  let n1 := nat_of_ascii c1 in
  let n2 := nat_of_ascii c2 in
  ((n1 =? 194) && ((n2 =? 133) || (n2 =? 160)))%nat.

Definition is_space3 (c1 c2 c3 : ascii) : bool :=
  let n1 := nat_of_ascii c1 in
  let n2 := nat_of_ascii c2 in
  let n3 := nat_of_ascii c3 in
  ((n1 =? 225) && (n2 =? 154) && (n3 =? 128)
   || (n1 =? 226) && (n2 =? 128)
      && ((128 <=? n3) && (n3 <=? 138)
          || (n3 =? 168) || (n3 =? 169) || (n3 =? 175))
   || (n1 =? 226) && (n2 =? 129) && (n3 =? 159)
   || (n1 =? 227) && (n2 =? 128) && (n3 =? 128))%nat.

(** [s.lstrip()]. *)
Fixpoint lstrip (s : string) : string :=
  match s with
  | EmptyString => EmptyString
  | String c1 s1 =>
      if is_space c1 then lstrip s1
      else
        match s1 with
        | String c2 s2 =>
            if is_space2 c1 c2 then lstrip s2
            else
              match s2 with
              | String c3 s3 => if is_space3 c1 c2 c3 then lstrip s3 else s
              | EmptyString => s
              end
        | EmptyString => s
        end
  end.

Fixpoint rev_onto (s acc : string) : string :=
  match s with
  | EmptyString => acc
  | String c s' => rev_onto s' (String c acc)
  end.

Definition string_rev (s : string) : string := rev_onto s EmptyString.

(** [lstrip] on a string read from its end: the bytes of a code point come
    last byte first. *)
Fixpoint lstrip_reversed (s : string) : string :=
  match s with
  | EmptyString => EmptyString
  | String c1 s1 =>
      if is_space c1 then lstrip_reversed s1
      else
        match s1 with
        | String c2 s2 =>
            if is_space2 c2 c1 then lstrip_reversed s2
            else
              match s2 with
              | String c3 s3 =>
                  if is_space3 c3 c2 c1 then lstrip_reversed s3 else s
              | EmptyString => s
              end
        | EmptyString => s
        end
  end.

(** [s.rstrip()]. *)
Definition rstrip (s : string) : string :=
  string_rev (lstrip_reversed (string_rev s)).

(** [s.strip()]. *)
Definition strip (s : string) : string := rstrip (lstrip s).

(** [xs.append(x)]. *)
Definition append_item {A} (xs : list A) (x : A) : list A := (xs ++ [x])%list.

Definition nonempty {A} (xs : list A) : bool :=
  match xs with [] => false | _ :: _ => true end.

(* ------------------------------------------------------------------ *)
(** ** The libraries and the backend *)

(** The JSON body of [POST <host>/api/generate]; [p_images] is [None] when the
    key [images] is not set. *)
Record payload : Type := MkPayload {
  p_model : string;
  p_prompt : string;
  p_stream : bool;
  p_temperature : Q;
  p_images : option (list string)
}.

(** One call of [requests.post(url, json=..., stream=..., timeout=...)]. *)
Record request : Type := MkRequest {
  req_url : string;
  req_json : payload;
  req_stream : bool;
  req_timeout : Z
}.

(** What came back: the status line, the lines [iter_lines()] delivers and
    the exception it raises after them when the connection breaks, and what
    [json()] makes of the body. *)
Record response : Type := MkResponse {
  status_code : Z;
  http_error : string;
  resp_lines : list string;
  resp_lines_exn : option exn;
  resp_json : result PyVal
}.

(** [response.raise_for_status()]: an [HTTPError] for 4xx and 5xx. *)
Definition raise_for_status (r : response) : result unit :=
  if ((400 <=? status_code r) && (status_code r <? 600))%Z
  then Raise (MkExn RequestException (http_error r))
  else Ok tt.

(** What the code calls and does not define. Within one invocation no two
    requests are equal, so a function of the request is all a backend can
    show. *)
Record Runtime : Type := MkRuntime {
  (** [base64.b64decode] on a string; [None] is [binascii.Error] or [ValueError] *)
  b64decode : string -> option bytes;
  (** whether [import pytesseract] and [from PIL import Image] succeeded *)
  TESSERACT_AVAILABLE : bool;
  (** [pytesseract.image_to_string(Image.open(io.BytesIO(b)))] *)
  ocr_read : bytes -> result string;
  (** [json.loads] on a line of the response *)
  json_loads : string -> result PyVal;
  (** [requests.post] *)
  requests_post : request -> result response;
  (** [str(v)] for a value that is not a string *)
  py_str : PyVal -> string
}.

Definition base64_b64decode (rt : Runtime) (s : string) : result bytes :=
  match b64decode rt s with
  | Some b => Ok b
  | None => Raise (MkExn BinasciiError "Incorrect padding")
  end.

(** [f"{v}"]. *)
Definition fmt (rt : Runtime) (v : PyVal) : string :=
  match v with
  | PStr s => s
  | _ => py_str rt v
  end.

(* ------------------------------------------------------------------ *)
(** ** Effects: state of the object, exceptions, and a trace *)

Inductive event : Type :=
| Yield (fragment : PyVal)        (* a fragment handed to the caller *)
| HttpPost (req : request)        (* a request sent to the backend *)
| OcrRead (image : bytes).        (* an image given to Tesseract *)

Section Effects.
Variable S : Type.

(** A method of an object of state [S]: its result or exception, the
    state it leaves, and what it did, in order. *)
Definition ME (A : Type) : Type := S -> result A * S * list event.

Definition ret {A} (a : A) : ME A := fun s => (Ok a, s, []).

Definition lift {A} (r : result A) : ME A := fun s => (r, s, []).

Definition bind {A B} (m : ME A) (k : A -> ME B) : ME B :=
  fun s =>
    match m s with
    | (Ok a, s1, t1) =>
        match k a s1 with
        | (r, s2, t2) => (r, s2, (t1 ++ t2)%list)
        end
    | (Raise e, s1, t1) => (Raise e, s1, t1)
    end.

Definition get : ME S := fun s => (Ok s, s, []).

Definition emit (e : event) : ME unit := fun s => (Ok tt, s, [e]).

Definition yield (v : PyVal) : ME unit := emit (Yield v).

(** [try: body / except handled as e: handler(e)]. *)
Definition try_exceptM {A} (body : ME A) (handled : list exn_class)
    (handler : exn -> ME A) : ME A :=
  fun s =>
    match body s with
    | (Raise e, s1, t1) =>
        if caught_by handled e then
          match handler e s1 with
          | (r, s2, t2) => (r, s2, (t1 ++ t2)%list)
          end
        else (Raise e, s1, t1)
    | done => done
    end.
End Effects.

Arguments ret {S A} a.
Arguments bind {S A B} m k.
Arguments try_exceptM {S A} body handled handler.
Arguments lift {S A} r.
Arguments get {S}.
Arguments emit {S} e.
Arguments yield {S} v.

Notation "x <~ m ;; k" := (bind m (fun x => k))
  (at level 61, m at next level, right associativity).
Notation "m ;;; k" := (bind m (fun _ => k))
  (at level 61, right associativity).

(** [for x in xs: body(x)] in a method. *)
Fixpoint for_eachM {S A} (body : A -> ME S unit) (xs : list A) : ME S unit :=
  match xs with
  | [] => ret tt
  | x :: rest => body x ;;; for_eachM body rest
  end.

(** The fragments of a trace, in the order the caller receives them. *)
Definition yields (tr : list event) : list PyVal :=
  flat_map (fun e => match e with Yield v => [v] | _ => [] end) tr.

Definition posts (tr : list event) : list request :=
  flat_map (fun e => match e with HttpPost r => [r] | _ => [] end) tr.

Definition ocr_reads (tr : list event) : list bytes :=
  flat_map (fun e => match e with OcrRead b => [b] | _ => [] end) tr.

Definition trace_of {S A} (out : result A * S * list event) : list event :=
  snd out.
Definition state_of {S A} (out : result A * S * list event) : S :=
  snd (fst out).
Definition result_of {S A} (out : result A * S * list event) : result A :=
  fst (fst out).

(** The body of [for line in response.iter_lines()] that both pipelines
    share: a line that is not empty is parsed and its [response] field, when
    it has one, is yielded; a line that is not JSON is passed over. *)
Definition forward_line {S} (rt : Runtime) (line : string) : ME S unit :=
  match line with
  | EmptyString => ret tt
  | _ =>
      try_exceptM
        (data <~ lift (json_loads rt line) ;;
         has <~ lift (py_in "response" data) ;;
         if has : bool then
           fragment <~ lift (py_getitem data "response") ;;
           yield fragment
         else ret tt)
        [JSONDecodeError]
        (fun _ => ret tt)
  end.

(** [for line in response.iter_lines(): ...], with the exception the
    iterator raises when the connection breaks after the last line read. *)
Definition iter_lines_loop {S} (rt : Runtime) (r : response) : ME S unit :=
  for_eachM (forward_line rt) (resp_lines r) ;;;
  match resp_lines_exn r with
  | Some e => lift (Raise e)
  | None => ret tt
  end.

(** [f"Error calling {model}: {str(e)}"], in both pipelines. *)
Definition error_fragment (model : string) (e : exn) : PyVal :=
  PStr ("Error calling " ++ model ++ ": " ++ exn_msg e).

(* ------------------------------------------------------------------ *)
(** ** alice_paralegal_pipeline.py *)

Module Alice.

Record Valves : Type := MkValves {
  OLLAMA_HOST : string;
  REASONING_MODEL : string;
  TEMPERATURE : Q
}.

Definition default_valves : Valves :=
  {| OLLAMA_HOST := "http://host.docker.internal:11434";
     REASONING_MODEL := "deepseek-r1:8b";
     TEMPERATURE := 3 # 10 |}.

Record Pipeline : Type := MkPipeline {
  name : string;
  valves : Valves
}.

Definition __init__ : Pipeline :=
  {| name := "Alice Paralegal"; valves := default_valves |}.

(** The [try] of lines 66-71: the payload after the first comma, decoded;
    [IndexError] and [ValueError] leave the lists as they were. *)
Definition extract_data_uri (rt : Runtime) (url : PyVal)
    (images : list bytes) (text_parts : list PyVal)
    : result (list bytes * list PyVal) :=
  try_except
    (pieces <- py_str_split url comma (Some 1%nat) ;;
     base64_data <- list_index pieces 1 ;;
     image_bytes <- base64_b64decode rt base64_data ;;
     Ok (append_item images image_bytes, text_parts))
    [IndexError; ValueError]
    (fun _ => Ok (images, text_parts)).

(** The body of [for item in content] (lines 60-73). *)
Definition extract_item (rt : Runtime) (acc : list bytes * list PyVal)
    (item : PyVal) : result (list bytes * list PyVal) :=
  let (images, text_parts) := acc in
  match item with
  | PDict _ =>
      ty <- py_get item "type" PNone ;;
      if eq_str ty "text" then
        text <- py_get item "text" (PStr EmptyString) ;;
        Ok (images, append_item text_parts text)
      else if eq_str ty "image_url" then
        image_url <- py_get item "image_url" (PDict []) ;;
        url <- py_get image_url "url" (PStr EmptyString) ;;
        is_data <- py_startswith url "data:image" ;;
        if is_data : bool then extract_data_uri rt url images text_parts
        else Ok acc
      else Ok acc
  | PStr _ => Ok (images, append_item text_parts item)
  | _ => Ok acc
  end.

(** The body of [for msg in messages] (lines 52-73). *)
Definition extract_message (rt : Runtime) (acc : list bytes * list PyVal)
    (msg : PyVal) : result (list bytes * list PyVal) :=
  content <- py_get msg "content" (PStr EmptyString) ;;
  match content with
  | PStr _ => Ok (fst acc, append_item (snd acc) content)
  | PList items => for_each (extract_item rt) items acc
  | _ => Ok acc
  end.

Definition _extract_images (rt : Runtime) (messages : list PyVal)
    : result (list bytes * string) :=
  acc <- for_each (extract_message rt) messages ([], []) ;;
  text <- py_join " " (snd acc) ;;
  Ok (fst acc, text).

Definition _ocr_image (rt : Runtime) (image_bytes : bytes)
    : ME Pipeline string :=
  if negb (TESSERACT_AVAILABLE rt) then ret "Error: pytesseract not installed"
  else
    try_exceptM
      (emit (OcrRead image_bytes) ;;;
       text <~ lift (ocr_read rt image_bytes) ;;
       ret (strip text))
      [Exception]
      (fun e => ret ("Error reading image: " ++ exn_msg e)).

Definition stream_request (v : Valves) (prompt : string) : request :=
  {| req_url := OLLAMA_HOST v ++ "/api/generate";
     req_json := {| p_model := REASONING_MODEL v;
                    p_prompt := prompt;
                    p_stream := true;
                    p_temperature := TEMPERATURE v;
                    p_images := None |};
     req_stream := true;
     req_timeout := 300 |}.

Definition _call_ollama_stream (rt : Runtime) (prompt : string)
    : ME Pipeline unit :=
  self <~ get ;;
  try_exceptM
    (let req := stream_request (valves self) prompt in
     emit (HttpPost req) ;;;
     response <~ lift (requests_post rt req) ;;
     lift (raise_for_status response) ;;;
     iter_lines_loop rt response)
    [Exception]
    (fun e => yield (error_fragment (REASONING_MODEL (valves self)) e)).

(** [for i, img_bytes in enumerate(images)] of lines 133-136. *)
Fixpoint ocr_loop (rt : Runtime) (images : list bytes) (all_text : list string)
    : ME Pipeline (list string) :=
  match images with
  | [] => ret all_text
  | img_bytes :: rest =>
      ocr_text <~ _ocr_image rt img_bytes ;;
      ocr_loop rt rest (append_item all_text ocr_text)
  end.

Definition reading_header : string :=
  "👁️ *Alice Paralegal reading image with Tesseract OCR...*" ++ nl ++ nl.

Definition extracted_fragment (combined_ocr : string) : string :=
  "**Extracted Text:**" ++ nl ++ "```" ++ nl ++ combined_ocr ++ nl ++ "```"
  ++ nl ++ nl ++ "---" ++ nl ++ nl.

Definition analyzing_header : string :=
  "⚖️ *Analyzing with deepseek-r1:8b...*" ++ nl ++ nl.

Definition fallback_question : string := "What is the correct answer?".

(** The prompt of lines 144-156; [question] is what the f-string puts after
    [User asks: ]. *)
Definition image_prompt (combined_ocr question : string) : string :=
  "You are a legal reasoning assistant for Texas bar exam preparation." ++ nl
  ++ nl
  ++ "Here is the question extracted from the image:" ++ nl
  ++ combined_ocr ++ nl
  ++ nl
  ++ "User asks: " ++ question ++ nl
  ++ nl
  ++ "Provide thorough legal analysis:" ++ nl
  ++ "1. Identify the legal issue(s) being tested" ++ nl
  ++ "2. State the applicable rule(s) of law" ++ nl
  ++ "3. Apply the rule to these specific facts" ++ nl
  ++ "4. Analyze each answer choice - explain why it is correct or incorrect" ++ nl
  ++ "5. State the best answer with confidence".

(** The prompt of lines 162-170. *)
Definition bare_prompt (question : string) : string :=
  "You are a legal reasoning assistant for Texas bar exam preparation." ++ nl
  ++ nl
  ++ "Question: " ++ question ++ nl
  ++ nl
  ++ "Provide thorough legal analysis:" ++ nl
  ++ "1. Identify the legal issue(s)" ++ nl
  ++ "2. State the applicable rule(s) of law  " ++ nl
  ++ "3. Apply the rule to the facts" ++ nl
  ++ "4. Reach a conclusion".

Definition pipe (rt : Runtime) (user_message : PyVal) (model_id : string)
    (messages : list PyVal) (body : PyVal) : ME Pipeline unit :=
  extracted <~ lift (_extract_images rt messages) ;;
  let (images, text_content) := extracted : list bytes * string in
  if nonempty images then
    yield (PStr reading_header) ;;;
    all_text <~ ocr_loop rt images [] ;;
    let combined_ocr := String.concat (nl ++ nl) all_text in
    yield (PStr (extracted_fragment combined_ocr)) ;;;
    yield (PStr analyzing_header) ;;;
    let reasoning_prompt :=
      image_prompt combined_ocr
        (fmt rt (if truthy user_message then user_message
                 else PStr fallback_question)) in
    _call_ollama_stream rt reasoning_prompt
  else
    let reasoning_prompt := bare_prompt (fmt rt user_message) in
    _call_ollama_stream rt reasoning_prompt.

End Alice.

(* ------------------------------------------------------------------ *)
(** ** legal_vision_pipeline.py *)

Module LegalVision.

Record Valves : Type := MkValves {
  OLLAMA_HOST : string;
  VISION_MODEL : string;
  REASONING_MODEL : string;
  TEMPERATURE : Q
}.

Definition default_valves : Valves :=
  {| OLLAMA_HOST := "http://host.docker.internal:11434";
     VISION_MODEL := "llava:13b";
     REASONING_MODEL := "deepseek-r1:8b";
     TEMPERATURE := 3 # 10 |}.

Record Pipeline : Type := MkPipeline {
  name : string;
  valves : Valves
}.

Definition __init__ : Pipeline :=
  {| name := "Legal Vision (llava + deepseek-r1)"; valves := default_valves |}.

(** The [try] of lines 65-69: the piece between the first comma and the
    next one, kept as text; [IndexError] leaves the lists as they were. *)
Definition extract_data_uri (url : PyVal)
    (images : list string) (text_parts : list PyVal)
    : result (list string * list PyVal) :=
  try_except
    (pieces <- py_str_split url comma None ;;
     base64_data <- list_index pieces 1 ;;
     Ok (append_item images base64_data, text_parts))
    [IndexError]
    (fun _ => Ok (images, text_parts)).

(** The body of [for item in content] (lines 58-71). *)
Definition extract_item (acc : list string * list PyVal) (item : PyVal)
    : result (list string * list PyVal) :=
  let (images, text_parts) := acc in
  match item with
  | PDict _ =>
      ty <- py_get item "type" PNone ;;
      if eq_str ty "text" then
        text <- py_get item "text" (PStr EmptyString) ;;
        Ok (images, append_item text_parts text)
      else if eq_str ty "image_url" then
        image_url <- py_get item "image_url" (PDict []) ;;
        url <- py_get image_url "url" (PStr EmptyString) ;;
        is_data <- py_startswith url "data:image" ;;
        if is_data : bool then extract_data_uri url images text_parts
        else Ok acc
      else Ok acc
  | PStr _ => Ok (images, append_item text_parts item)
  | _ => Ok acc
  end.

(** The body of [for msg in messages] (lines 48-71). *)
Definition extract_message (acc : list string * list PyVal) (msg : PyVal)
    : result (list string * list PyVal) :=
  content <- py_get msg "content" (PStr EmptyString) ;;
  match content with
  | PStr _ => Ok (fst acc, append_item (snd acc) content)
  | PList items => for_each extract_item items acc
  | _ => Ok acc
  end.

Definition _has_images (messages : list PyVal)
    : result (bool * list string * string) :=
  acc <- for_each extract_message messages ([], []) ;;
  text <- py_join " " (snd acc) ;;
  Ok ((0 <? List.length (fst acc))%nat, fst acc, text).

(** [payload], with [images] set only for a list that is not empty. *)
Definition make_request (v : Valves) (model prompt : string)
    (images : option (list string)) (stream stream_kw : bool) : request :=
  {| req_url := OLLAMA_HOST v ++ "/api/generate";
     req_json := {| p_model := model;
                    p_prompt := prompt;
                    p_stream := stream;
                    p_temperature := TEMPERATURE v;
                    p_images := match images with
                                | Some (_ :: _) => images
                                | _ => None
                                end |};
     req_stream := stream_kw;
     req_timeout := 300 |}.

Definition _call_ollama (rt : Runtime) (model prompt : string)
    (images : option (list string)) (stream : bool) : ME Pipeline unit :=
  self <~ get ;;
  let req := make_request (valves self) model prompt images stream stream in
  try_exceptM
    (emit (HttpPost req) ;;;
     response <~ lift (requests_post rt req) ;;
     lift (raise_for_status response) ;;;
     if stream then iter_lines_loop rt response
     else
       data <~ lift (resp_json response) ;;
       fragment <~ lift (py_get data "response" (PStr EmptyString)) ;;
       yield fragment)
    [Exception]
    (fun e => yield (error_fragment model e)).

Definition _call_ollama_sync (rt : Runtime) (model prompt : string)
    (images : option (list string)) : ME Pipeline PyVal :=
  self <~ get ;;
  let req := make_request (valves self) model prompt images false false in
  try_exceptM
    (emit (HttpPost req) ;;;
     response <~ lift (requests_post rt req) ;;
     lift (raise_for_status response) ;;;
     data <~ lift (resp_json response) ;;
     lift (py_get data "response" (PStr EmptyString)))
    [Exception]
    (fun e => ret (error_fragment model e)).

Definition analyzing_header : string :=
  "🔍 *Analyzing image with llava:13b...*" ++ nl ++ nl.

(** The prompt of lines 159-163. *)
Definition vision_prompt (question : string) : string :=
  "Describe this image in detail. If it contains text (like a legal question, " ++ nl
  ++ "exam problem, or document), transcribe ALL the text exactly as written. Include any multiple choice " ++ nl
  ++ "options if present." ++ nl
  ++ nl
  ++ "User's question: " ++ question.

Definition analysis_fragment (image_description : string) : string :=
  "**Image Analysis:**" ++ nl ++ image_description ++ nl ++ nl ++ "---"
  ++ nl ++ nl.

Definition processing_header : string :=
  "⚖️ *Processing with deepseek-r1:8b for legal reasoning...*" ++ nl ++ nl.

Definition fallback_question : string :=
  "Analyze this and provide legal reasoning.".

(** The prompt of lines 175-187. *)
Definition image_prompt (image_description question : string) : string :=
  "You are a legal reasoning assistant helping with Texas bar exam preparation." ++ nl
  ++ nl
  ++ "Based on this image content:" ++ nl
  ++ image_description ++ nl
  ++ nl
  ++ "User's question: " ++ question ++ nl
  ++ nl
  ++ "Provide thorough legal analysis. If this is a multiple choice question:" ++ nl
  ++ "1. Identify the legal issue(s)" ++ nl
  ++ "2. State the applicable rule(s) of law" ++ nl
  ++ "3. Apply the rule to the facts" ++ nl
  ++ "4. Explain why each answer choice is correct or incorrect" ++ nl
  ++ "5. State the best answer with confidence".

(** The prompt of lines 193-201. *)
Definition bare_prompt (question : string) : string :=
  "You are a legal reasoning assistant helping with Texas bar exam preparation." ++ nl
  ++ nl
  ++ "Question: " ++ question ++ nl
  ++ nl
  ++ "Provide thorough legal analysis. If this is a legal question:" ++ nl
  ++ "1. Identify the legal issue(s)" ++ nl
  ++ "2. State the applicable rule(s) of law  " ++ nl
  ++ "3. Apply the rule to the facts" ++ nl
  ++ "4. Reach a conclusion".

Definition pipe (rt : Runtime) (user_message : PyVal) (model_id : string)
    (messages : list PyVal) (body : PyVal) : ME Pipeline unit :=
  found <~ lift (_has_images messages) ;;
  let '(has_images, images, text_content) :=
    found : bool * list string * string in
  self <~ get ;;
  if has_images then
    yield (PStr analyzing_header) ;;;
    let vision :=
      vision_prompt (fmt rt (if truthy user_message then user_message
                             else PStr text_content)) in
    image_description <~
      _call_ollama_sync rt (VISION_MODEL (valves self)) vision (Some images) ;;
    yield (PStr (analysis_fragment (fmt rt image_description))) ;;;
    yield (PStr processing_header) ;;;
    let reasoning_prompt :=
      image_prompt (fmt rt image_description)
        (fmt rt (if truthy user_message then user_message
                 else PStr fallback_question)) in
    _call_ollama rt (REASONING_MODEL (valves self)) reasoning_prompt None true
  else
    let reasoning_prompt := bare_prompt (fmt rt user_message) in
    _call_ollama rt (REASONING_MODEL (valves self)) reasoning_prompt None true.

End LegalVision.

(* ------------------------------------------------------------------ *)
(** ** What the statements below are written with *)

(** The text after the first [sep] of [s], when there is one. *)
Fixpoint after_first (sep : ascii) (s : string) : option string :=
  match s with
  | EmptyString => None
  | String c s' => if Ascii.eqb c sep then Some s' else after_first sep s'
  end.

(** The text before the first [sep] of [s], all of [s] when there is none. *)
Fixpoint before_first (sep : ascii) (s : string) : string :=
  match s with
  | EmptyString => EmptyString
  | String c s' =>
      if Ascii.eqb c sep then EmptyString else String c (before_first sep s')
  end.

Definition is_str (v : PyVal) : bool :=
  match v with PStr _ => true | _ => false end.

Definition all_str (vs : list PyVal) : bool := forallb is_str vs.

Definition lookup_or (key : string) (entries : list (string * PyVal))
    (default : PyVal) : PyVal :=
  match dict_lookup key entries with Some v => v | None => default end.

(** A part the extractors can go through: a [text] part carries a string, an
    [image_url] part carries a dict (or nothing) whose [url] is a string (or
    is not there); any other part passes. *)
Definition part_shape_ok (item : PyVal) : bool :=
  match item with
  | PDict entries =>
      let ty := lookup_or "type" entries PNone in
      if eq_str ty "text" then
        is_str (lookup_or "text" entries (PStr EmptyString))
      else if eq_str ty "image_url" then
        match lookup_or "image_url" entries (PDict []) with
        | PDict inner => is_str (lookup_or "url" inner (PStr EmptyString))
        | _ => false
        end
      else true
  | _ => true
  end.

(** A message the extractors can go through: a dict, whose content, when it
    is a list, is made of such parts. *)
Definition message_shape_ok (msg : PyVal) : bool :=
  match msg with
  | PDict entries =>
      match lookup_or "content" entries (PStr EmptyString) with
      | PList items => forallb part_shape_ok items
      | _ => true
      end
  | _ => false
  end.

Definition well_shaped (messages : list PyVal) : bool :=
  forallb message_shape_ok messages.

(** The loop of an extractor went through and every text it holds is a
    string, so that the final [join] goes through as well. *)
Definition texts_ok {I} (r : result (list I * list PyVal)) : bool :=
  match r with
  | Ok acc => all_str (snd acc)
  | Raise _ => false
  end.

(** A part [{"type": "image_url", "image_url": {"url": url}}], whatever else
    its two dicts hold. *)
Definition image_part_url (item : PyVal) : option string :=
  match item with
  | PDict entries =>
      if eq_str (lookup_or "type" entries PNone) "image_url" then
        match lookup_or "image_url" entries (PDict []) with
        | PDict inner =>
            match lookup_or "url" inner (PStr EmptyString) with
            | PStr url => Some url
            | _ => None
            end
        | _ => None
        end
      else None
  | _ => None
  end.

(** A data URI whose payload cannot be used: no comma, or base64 that does
    not decode. *)
Definition malformed_data_uri (rt : Runtime) (url : string) : bool :=
  match after_first comma url with
  | None => true
  | Some payload =>
      match b64decode rt payload with
      | None => true
      | Some _ => false
      end
  end.

(** What the specification says the OCR strategy gives for one image. *)
Definition recognized_or_error (rt : Runtime) (image : bytes) : string :=
  match ocr_read rt image with
  | Ok text => strip text
  | Raise e => "Error reading image: " ++ exn_msg e
  end.

(** What [_ocr_image] gives for one image. *)
Definition ocr_output (rt : Runtime) (image : bytes) : string :=
  if TESSERACT_AVAILABLE rt then recognized_or_error rt image
  else "Error: pytesseract not installed".

Definition ocr_events (rt : Runtime) (images : list bytes) : list event :=
  if TESSERACT_AVAILABLE rt then map OcrRead images else [].

(** Where the transport of a streaming call fails, if it does. *)
Inductive failure : Type :=
| AtRequest (e : exn)      (* [requests.post] or [raise_for_status] raised *)
| MidStream (e : exn).     (* [iter_lines] raised after some lines *)

Definition transport_failure (rt : Runtime) (req : request) : option failure :=
  match requests_post rt req with
  | Raise e => Some (AtRequest e)
  | Ok r =>
      match raise_for_status r with
      | Raise e => Some (AtRequest e)
      | Ok _ =>
          match resp_lines_exn r with
          | Some e => Some (MidStream e)
          | None => None
          end
      end
  end.

(** A streaming call of either pipeline. *)
Inductive streaming_call : Type :=
| AliceStream (self : Alice.Pipeline) (prompt : string)
| LegalStream (self : LegalVision.Pipeline) (model prompt : string)
    (images : option (list string)).

Definition call_request (c : streaming_call) : request :=
  match c with
  | AliceStream self prompt => Alice.stream_request (Alice.valves self) prompt
  | LegalStream self model prompt images =>
      LegalVision.make_request (LegalVision.valves self) model prompt images
        true true
  end.

Definition call_model (c : streaming_call) : string :=
  match c with
  | AliceStream self _ => Alice.REASONING_MODEL (Alice.valves self)
  | LegalStream _ model _ _ => model
  end.

(** The exception the generator ends with, if any, and its trace. *)
Definition run_call (rt : Runtime) (c : streaming_call)
    : result unit * list event :=
  match c with
  | AliceStream self prompt =>
      let out := Alice._call_ollama_stream rt prompt self in
      (result_of out, trace_of out)
  | LegalStream self model prompt images =>
      let out := LegalVision._call_ollama rt model prompt images true self in
      (result_of out, trace_of out)
  end.

(** Whether the call left the object as it was. *)
Definition call_keeps_state (rt : Runtime) (c : streaming_call) : Prop :=
  match c with
  | AliceStream self prompt =>
      state_of (Alice._call_ollama_stream rt prompt self) = self
  | LegalStream self model prompt images =>
      state_of (LegalVision._call_ollama rt model prompt images true self) = self
  end.

(* ------------------------------------------------------------------ *)
(** ** A runtime to compute with *)

Module Sample.

(** [binascii.a2b_base64] without [strict_mode], as CPython runs it:
    characters outside the alphabet are passed over, a [=] ends the data once
    the quad is padded, and data that ends inside a quad is an error. *)
Definition b64_value (c : ascii) : option N :=
  let n := N_of_ascii c in
  if ((65 <=? n) && (n <=? 90))%N then Some (n - 65)%N
  else if ((97 <=? n) && (n <=? 122))%N then Some (n - 71)%N
  else if ((48 <=? n) && (n <=? 57))%N then Some (n + 4)%N
  else if (n =? 43)%N then Some 62%N
  else if (n =? 47)%N then Some 63%N
  else None.

Definition byte_of_N (n : N) : byte :=
  match Byte.of_N (n mod 256) with
  | Some b => b
  | None => x00
  end.

Fixpoint a2b_base64 (s : string) (quad_pos : nat) (leftchar : N) (pads : nat)
    (out : bytes) : option bytes :=
  match s with
  | EmptyString => if (quad_pos =? 0)%nat then Some out else None
  | String c s' =>
      if Ascii.eqb c "=" then
        if (2 <=? quad_pos)%nat then
          if (4 <=? quad_pos + S pads)%nat then Some out
          else a2b_base64 s' quad_pos leftchar (S pads) out
        else a2b_base64 s' quad_pos leftchar pads out
      else
        match b64_value c with
        | None => a2b_base64 s' quad_pos leftchar pads out
        | Some v =>
            match quad_pos with
            | 0%nat => a2b_base64 s' 1 v 0 out
            | 1%nat =>
                a2b_base64 s' 2 (N.land v 15) 0
                  (append_item out
                     (byte_of_N (N.lor (N.shiftl leftchar 2) (N.shiftr v 4))))
            | 2%nat =>
                a2b_base64 s' 3 (N.land v 3) 0
                  (append_item out
                     (byte_of_N (N.lor (N.shiftl leftchar 4) (N.shiftr v 2))))
            | _ =>
                a2b_base64 s' 0 0 0
                  (append_item out (byte_of_N (N.lor (N.shiftl leftchar 6) v)))
            end
        end
  end.

Fixpoint is_ascii (s : string) : bool :=
  match s with
  | EmptyString => true
  | String c s' => (N_of_ascii c <? 128)%N && is_ascii s'
  end.

(** [base64.b64decode(s)] for a string [s]. *)
Definition python_b64decode (s : string) : option bytes :=
  if is_ascii s then a2b_base64 s 0 0 0 [] else None.

Definition dq : string := String (ascii_of_nat 34) EmptyString.

(** The line [{"response": "<text>"}] of a streamed answer. *)
Definition response_line (text : string) : string :=
  "{" ++ dq ++ "response" ++ dq ++ ": " ++ dq ++ text ++ dq ++ "}".

Definition done_line : string :=
  "{" ++ dq ++ "done" ++ dq ++ ": true}".

Fixpoint lookup_line (line : string) (table : list (string * PyVal))
    : result PyVal :=
  match table with
  | [] => Raise (MkExn JSONDecodeError "Expecting value: line 1 column 1 (char 0)")
  | (l, v) :: rest => if String.eqb l line then Ok v else lookup_line line rest
  end.

(** [json.loads] on the lines the examples use. *)
Definition json_table : list (string * PyVal) :=
  [ (response_line "Hi", PDict [("response", PStr "Hi")]);
    (response_line " there", PDict [("response", PStr " there")]);
    (done_line, PDict [("done", PBool true)]);
    ("7", PInt 7) ].

(** Tesseract on the examples: it reads an image that starts with the PNG
    magic byte as the text after it, and [Image.open] refuses the others. *)
Definition ocr_table (image : bytes) : result string :=
  match image with
  | x89 :: rest => Ok (string_of_list_byte rest)
  | _ => Raise (MkExn Exception "cannot identify image file")
  end.

(** [str(v)] on the values the examples use. *)
Definition str_of (v : PyVal) : string :=
  match v with
  | PNone => "None"
  | PBool true => "True"
  | PBool false => "False"
  | PStr s => s
  | PList [] => "[]"
  | PDict [] => "{}"
  | _ => "<" ++ type_name v ++ ">"
  end.

Definition runtime (tesseract : bool) (post : request -> result response)
    : Runtime :=
  {| b64decode := python_b64decode;
     TESSERACT_AVAILABLE := tesseract;
     ocr_read := ocr_table;
     json_loads := fun line => lookup_line line json_table;
     requests_post := post;
     py_str := str_of |}.

Definition ok_response (lines : list string) (body : result PyVal) : response :=
  {| status_code := 200;
     http_error := EmptyString;
     resp_lines := lines;
     resp_lines_exn := None;
     resp_json := body |}.

(** A backend that works: two fragments and the closing line for a streaming
    request, a JSON object for the other. *)
Definition healthy (req : request) : result response :=
  Ok (ok_response [response_line "Hi"; EmptyString; response_line " there"; done_line]
        (Ok (PDict [("response", PStr "A contract question.")]))).

(** Nobody listens at the host. *)
Definition unreachable (req : request) : result response :=
  Raise (MkExn RequestException "Connection refused").

(** The server answers 500. *)
Definition failing_status (req : request) : result response :=
  Ok {| status_code := 500;
        http_error := "500 Server Error: Internal Server Error for url: "
                      ++ req_url req;
        resp_lines := [response_line "Hi"];
        resp_lines_exn := None;
        resp_json := Ok (PDict []) |}.

(** The connection breaks after the first fragment. *)
Definition broken_stream (req : request) : result response :=
  Ok {| status_code := 200;
        http_error := EmptyString;
        resp_lines := [response_line "Hi"];
        resp_lines_exn := Some (MkExn RequestException "Connection broken");
        resp_json := Raise (MkExn RequestException "Connection broken") |}.

(** The server answers 304 with an empty body. *)
Definition not_modified (req : request) : result response :=
  Ok {| status_code := 304;
        http_error := EmptyString;
        resp_lines := [];
        resp_lines_exn := None;
        resp_json := Raise (MkExn RequestException "Expecting value") |}.

(** The server answers with a JSON object that has no [response]. *)
Definition no_response_field (req : request) : result response :=
  Ok (ok_response [] (Ok (PDict [("done", PBool true)]))).

Definition text_message (s : string) : PyVal :=
  PDict [("role", PStr "user"); ("content", PStr s)].

Definition text_part (s : string) : PyVal :=
  PDict [("type", PStr "text"); ("text", PStr s)].

Definition image_part (url : string) : PyVal :=
  PDict [("type", PStr "image_url"); ("image_url", PDict [("url", PStr url)])].

Definition parts_message (parts : list PyVal) : PyVal :=
  PDict [("role", PStr "user"); ("content", PList parts)].

End Sample.

(* ------------------------------------------------------------------ *)
(** ** The extractors and the stream, said without loops *)

(** The content of a message, as [msg.get("content", "")] gives it. *)
Definition content_of (msg : PyVal) : PyVal :=
  match msg with
  | PDict entries => lookup_or "content" entries (PStr EmptyString)
  | _ => PNone
  end.

(** The text one part of a content gives: a string part itself, a [text]
    part its [text]. *)
Definition part_texts (item : PyVal) : list string :=
  match item with
  | PStr s => [s]
  | PDict entries =>
      if eq_str (lookup_or "type" entries PNone) "text" then
        match lookup_or "text" entries (PStr EmptyString) with
        | PStr s => [s]
        | _ => []
        end
      else []
  | _ => []
  end.

Definition message_texts (msg : PyVal) : list string :=
  match content_of msg with
  | PStr s => [s]
  | PList items => flat_map part_texts items
  | _ => []
  end.

(** The image one part gives in the alice pipeline: the decoded payload of a
    [data:image] URL. *)
Definition alice_part_images (rt : Runtime) (item : PyVal) : list bytes :=
  match image_part_url item with
  | Some url =>
      if startswith "data:image" url then
        match after_first comma url with
        | Some payload =>
            match b64decode rt payload with
            | Some image => [image]
            | None => []
            end
        | None => []
        end
      else []
  | None => []
  end.

(** The image one part gives in the legal_vision pipeline: the text between
    the first two commas of a [data:image] URL. *)
Definition legal_part_images (item : PyVal) : list string :=
  match image_part_url item with
  | Some url =>
      if startswith "data:image" url then
        match after_first comma url with
        | Some payload => [before_first comma payload]
        | None => []
        end
      else []
  | None => []
  end.

Definition alice_message_images (rt : Runtime) (msg : PyVal) : list bytes :=
  match content_of msg with
  | PList items => flat_map (alice_part_images rt) items
  | _ => []
  end.

Definition legal_message_images (msg : PyVal) : list string :=
  match content_of msg with
  | PList items => flat_map legal_part_images items
  | _ => []
  end.

(** The two extractors at the same point of the same conversation: the same
    texts and no more images in alice than in legal_vision, or the same
    exception. *)
Definition agree (ra : result (list bytes * list PyVal))
    (rl : result (list string * list PyVal)) : Prop :=
  match ra, rl with
  | Ok (ia, pa), Ok (il, pl) =>
      pa = pl /\ (List.length ia <= List.length il)%nat
  | Raise ea, Raise el => ea = el
  | _, _ => False
  end.

(** The fragment a line of the stream gives when it is a JSON object. *)
Definition line_fragment (rt : Runtime) (line : string) : list PyVal :=
  match line with
  | EmptyString => []
  | _ =>
      match json_loads rt line with
      | Ok (PDict entries) =>
          match dict_lookup "response" entries with
          | Some v => [v]
          | None => []
          end
      | _ => []
      end
  end.

(** A line the loop goes past: empty, a JSON object, or not JSON at all. *)
Definition harmless_line (rt : Runtime) (line : string) : bool :=
  match line with
  | EmptyString => true
  | _ =>
      match json_loads rt line with
      | Ok (PDict _) => true
      | Ok _ => false
      | Raise e => exn_class_eqb (exn_cls e) JSONDecodeError
      end
  end.

(** A JSON value that is not an object and on which the test
    ["response" in data] raises, or succeeds so that [data["response"]]
    raises. *)
Definition breaks_stream (data : PyVal) : bool :=
  match data with
  | PDict _ => false
  | PStr s => str_contains "response" s
  | PList items => existsb (fun v => eq_str v "response") items
  | _ => true
  end.

(** A response without transport trouble. *)
Definition clean_response (rt : Runtime) (req : request) (r : response)
    : Prop :=
  requests_post rt req = Ok r
  /\ raise_for_status r = Ok tt
  /\ resp_lines_exn r = None.

(** What every request of a pipeline has to look like. *)
Definition request_ok (host : string) (temperature : Q) (models : list string)
    (req : request) : Prop :=
  req_url req = host ++ "/api/generate"
  /\ req_timeout req = 300%Z
  /\ p_temperature (req_json req) = temperature
  /\ req_stream req = p_stream (req_json req)
  /\ In (p_model (req_json req)) models.

(** A backend whose non-streaming endpoint is down and whose streaming one
    works. *)
Definition vision_down (req : request) : result response :=
  if p_stream (req_json req) then Sample.healthy req
  else Sample.unreachable req.

(** A backend that streams the given lines. *)
Definition streaming (lines : list string) (req : request) : result response :=
  Ok (Sample.ok_response lines (Ok PNone)).

(** A backend that answers a non-streaming request with the given body. *)
Definition answering (body : result PyVal) (req : request) : result response :=
  Ok (Sample.ok_response [] body).

(** What a non-streaming call gives back: the [response] field of the JSON
    object the backend answers (the empty string when it has none), or the
    error text when the request, the status, the body or the [.get] on a
    body that is not an object fails. *)
Definition sync_answer (rt : Runtime) (req : request) (model : string)
    : PyVal :=
  match requests_post rt req with
  | Raise e => error_fragment model e
  | Ok r =>
      match raise_for_status r with
      | Raise e => error_fragment model e
      | Ok _ =>
          match resp_json r with
          | Raise e => error_fragment model e
          | Ok (PDict entries) =>
              lookup_or "response" entries (PStr EmptyString)
          | Ok data =>
              error_fragment model
                (MkExn AttributeError
                   ("'" ++ type_name data ++ "' object has no attribute 'get'"))
          end
      end
  end.

(* ------------------------------------------------------------------ *)
(** ** Stage 1 and the objects it shares with its caller

    A Python list is an object: the callee gets the list of its caller, not
    a copy, and could change it. Here the two Stage-1 strategies run on a
    state that holds the objects they can reach, those of the caller (the
    pipeline, the list [images]) and their own (the list [all_text], the
    dict [payload]), and every assignment and [append] of the source is a
    write to that state. *)

Module Stage1.

(** What lines 133-138 of alice can reach. *)
Record alice_objects : Type := MkAliceObjects {
  a_self : Alice.Pipeline;        (* of the caller *)
  a_images : list bytes;          (* of the caller: the list [images] *)
  a_all_text : list string        (* its own: the list [all_text] *)
}.

(** A method of the pipeline, which reaches the pipeline only. *)
Definition on_alice_self {A} (m : ME Alice.Pipeline A) : ME alice_objects A :=
  fun s =>
    match m (a_self s) with
    | (r, self', t) =>
        (r, {| a_self := self'; a_images := a_images s;
               a_all_text := a_all_text s |}, t)
    end.

Definition set_all_text (xs : list string) : ME alice_objects unit :=
  fun s =>
    (Ok tt, {| a_self := a_self s; a_images := a_images s; a_all_text := xs |},
     []).

(** [for i, img_bytes in enumerate(images)] (lines 134-136): the iterator
    reads the list in place, item [i] at step [i], and stops when there is
    none. The result is [true] when the loop ended that way and [false]
    when [fuel] steps were not enough. *)
Fixpoint ocr_iterate (rt : Runtime) (fuel i : nat) : ME alice_objects bool :=
  match fuel with
  | O => ret false
  | S fuel' =>
      s <~ get ;;
      match nth_error (a_images s) i with
      | None => ret true
      | Some img_bytes =>
          ocr_text <~ on_alice_self (Alice._ocr_image rt img_bytes) ;;
          s' <~ get ;;
          set_all_text (append_item (a_all_text s') ocr_text) ;;;
          ocr_iterate rt fuel' (S i)
      end
  end.

(** Lines 133-138: [all_text = []], the loop, and the join. [None] when the
    loop was cut short by [fuel]. *)
Definition ocr_stage (rt : Runtime) (fuel : nat)
    : ME alice_objects (option string) :=
  set_all_text [] ;;;
  finished <~ ocr_iterate rt fuel 0 ;;
  s <~ get ;;
  ret (if finished : bool
       then Some (String.concat (nl ++ nl) (a_all_text s))
       else None).

(** The dict [payload] of lines 118-128; [o_images] tells whether the key
    [images] is set, and the key then holds the list of the caller
    itself. *)
Record payload_object : Type := MkPayloadObject {
  o_model : string;
  o_prompt : string;
  o_stream : bool;
  o_temperature : Q;
  o_images : bool
}.

(** What [_call_ollama_sync] of legal_vision can reach. *)
Record legal_objects : Type := MkLegalObjects {
  l_self : LegalVision.Pipeline;       (* of the caller *)
  l_images : option (list string);     (* of the caller: the argument
                                          [images], [None] or a list *)
  l_payload : payload_object           (* its own: the dict [payload] *)
}.

Definition set_payload (p : payload_object) : ME legal_objects unit :=
  fun s =>
    (Ok tt, {| l_self := l_self s; l_images := l_images s; l_payload := p |},
     []).

(** [if images:] on the argument. *)
Definition images_truthy (images : option (list string)) : bool :=
  match images with
  | Some (_ :: _) => true
  | _ => false
  end.

(** The request [requests.post(..., json=payload, timeout=300)] sends: the
    payload as it is at that moment, the list read through the key. *)
Definition request_of_payload (s : legal_objects) : request :=
  {| req_url :=
       LegalVision.OLLAMA_HOST (LegalVision.valves (l_self s)) ++ "/api/generate";
     req_json := {| p_model := o_model (l_payload s);
                    p_prompt := o_prompt (l_payload s);
                    p_stream := o_stream (l_payload s);
                    p_temperature := o_temperature (l_payload s);
                    p_images := if o_images (l_payload s) then l_images s
                                else None |};
     req_stream := false;
     req_timeout := 300 |}.

(** [_call_ollama_sync] (lines 115-141). *)
Definition _call_ollama_sync (rt : Runtime) (model prompt : string)
    : ME legal_objects PyVal :=
  s <~ get ;;
  set_payload
    {| o_model := model;
       o_prompt := prompt;
       o_stream := false;
       o_temperature :=
         LegalVision.TEMPERATURE (LegalVision.valves (l_self s));
       o_images := false |} ;;;
  (if images_truthy (l_images s) then
     s1 <~ get ;;
     set_payload
       {| o_model := o_model (l_payload s1);
          o_prompt := o_prompt (l_payload s1);
          o_stream := o_stream (l_payload s1);
          o_temperature := o_temperature (l_payload s1);
          o_images := true |}
   else ret tt) ;;;
  try_exceptM
    (s2 <~ get ;;
     emit (HttpPost (request_of_payload s2)) ;;;
     response <~ lift (requests_post rt (request_of_payload s2)) ;;
     lift (raise_for_status response) ;;;
     data <~ lift (resp_json response) ;;
     lift (py_get data "response" (PStr EmptyString)))
    [Exception]
    (fun e => ret (error_fragment model e)).

End Stage1.

(* ------------------------------------------------------------------ *)
(** ** Lemmas on the helpers *)

Lemma rbind_ok {A B} (r : result A) (k : A -> result B) (b : B) :
  rbind r k = Ok b -> exists a, r = Ok a /\ k a = Ok b.
Proof.
  destruct r as [a | e]; simpl; intro H; [exists a; auto | discriminate].
Qed.

Lemma for_each_app {A S} (body : S -> A -> result S) (xs ys : list A) (acc : S) :
  for_each body (xs ++ ys)%list acc
  = rbind (for_each body xs acc) (for_each body ys).
Proof.
  revert acc; induction xs as [| x xs IH]; intro acc; simpl.
  - reflexivity.
  - destruct (body acc x) as [acc' | e]; simpl; [apply IH | reflexivity].
Qed.

(** A step that leaves the accumulator alone can be taken out of the loop. *)
Lemma for_each_skip {A S} (body : S -> A -> result S) (xs ys : list A) (x : A) :
  (forall acc, body acc x = Ok acc) ->
  forall acc,
    for_each body (xs ++ x :: ys)%list acc = for_each body (xs ++ ys)%list acc.
Proof.
  intros Hskip acc. rewrite !for_each_app.
  destruct (for_each body xs acc) as [acc' | e]; simpl; [| reflexivity].
  now rewrite Hskip.
Qed.

Lemma strs_of_from_strings (i : nat) (ss : list string) :
  strs_of_from i (map PStr ss) = Ok ss.
Proof.
  revert i; induction ss as [| s ss IH]; intro i; simpl; [reflexivity |].
  now rewrite IH.
Qed.

Lemma strs_of_strings (ss : list string) : strs_of (map PStr ss) = Ok ss.
Proof. apply strs_of_from_strings. Qed.

Lemma strs_of_from_all_str (i : nat) (vs : list PyVal) :
  is_ok (strs_of_from i vs) = all_str vs.
Proof.
  revert i; induction vs as [| v vs IH]; intro i; simpl; [reflexivity |].
  destruct v; simpl; try reflexivity.
  rewrite <- (IH (S i)). now destruct (strs_of_from (S i) vs).
Qed.

Lemma strs_of_all_str (vs : list PyVal) : is_ok (strs_of vs) = all_str vs.
Proof. apply strs_of_from_all_str. Qed.

Lemma py_join_all_str (sep : string) (vs : list PyVal) :
  is_ok (py_join sep vs) = all_str vs.
Proof.
  unfold py_join. rewrite <- strs_of_all_str. now destruct (strs_of vs).
Qed.

Lemma all_str_append (vs : list PyVal) (v : PyVal) :
  all_str (append_item vs v) = all_str vs && is_str v.
Proof.
  unfold all_str, append_item. rewrite forallb_app. simpl.
  now rewrite andb_true_r.
Qed.

Lemma prefix_append (s t : string) : String.prefix s (s ++ t) = true.
Proof.
  induction s as [| c s IH]; simpl; [now destruct t |].
  destruct (ascii_dec c c); [exact IH | congruence].
Qed.

Lemma str_contains_inside (a sub b : string) :
  str_contains sub (a ++ sub ++ b) = true.
Proof.
  induction a as [| c a IH]; simpl.
  - pose proof (prefix_append sub b) as P.
    destruct (sub ++ b); cbn [str_contains]; rewrite P; reflexivity.
  - cbn [str_contains]. rewrite IH. apply orb_true_r.
Qed.

Lemma py_split_no_more (sep : ascii) (s : string) :
  py_split sep (Some 0%nat) s = [s].
Proof.
  induction s as [| c s IH]; simpl; [reflexivity |].
  rewrite IH. now destruct (Ascii.eqb c sep).
Qed.

Lemma py_split_pieces (sep : ascii) (maxsplit : option nat) (s : string) :
  exists piece pieces, py_split sep maxsplit s = piece :: pieces.
Proof.
  revert maxsplit; induction s as [| c s IH]; intro maxsplit; simpl.
  - now exists EmptyString, [].
  - destruct (IH maxsplit) as (p & ps & E). rewrite E.
    destruct (Ascii.eqb c sep); [| now eexists; eexists].
    destruct maxsplit as [[| n] |]; now eexists; eexists.
Qed.

(** [s.split(sep, 1)[1]] is all that follows the first separator. *)
Lemma split_once_second (sep : ascii) (s : string) :
  nth_error (py_split sep (Some 1%nat) s) 1 = after_first sep s.
Proof.
  induction s as [| c s IH]; simpl; [reflexivity |].
  destruct (Ascii.eqb c sep).
  - now rewrite py_split_no_more.
  - destruct (py_split_pieces sep (Some 1%nat) s) as (p & ps & E).
    rewrite E in *. exact IH.
Qed.

Lemma split_all_first (sep : ascii) (s : string) :
  nth_error (py_split sep None s) 0 = Some (before_first sep s).
Proof.
  induction s as [| c s IH]; simpl; [reflexivity |].
  destruct (Ascii.eqb c sep); [reflexivity |].
  destruct (py_split_pieces sep None s) as (p & ps & E).
  rewrite E in *. simpl in *. congruence.
Qed.

(** [s.split(sep)[1]] stops at the second separator. *)
Lemma split_all_second (sep : ascii) (s : string) :
  nth_error (py_split sep None s) 1
  = option_map (before_first sep) (after_first sep s).
Proof.
  induction s as [| c s IH]; simpl; [reflexivity |].
  destruct (Ascii.eqb c sep).
  - simpl. apply split_all_first.
  - destruct (py_split_pieces sep None s) as (p & ps & E).
    rewrite E in *. exact IH.
Qed.

(* ------------------------------------------------------------------ *)
(** ** The content extractors *)

(** The [try] of the alice extractor: the whole text after the first comma
    goes to the decoder, and nothing is added when there is no comma or the
    decoder refuses. *)
Lemma alice_data_uri (rt : Runtime) (url : string) (images : list bytes)
    (text_parts : list PyVal) :
  Alice.extract_data_uri rt (PStr url) images text_parts
  = Ok (match after_first comma url with
        | Some payload =>
            match b64decode rt payload with
            | Some image => append_item images image
            | None => images
            end
        | None => images
        end, text_parts).
Proof.
  unfold Alice.extract_data_uri, py_str_split, list_index. cbn [rbind].
  rewrite split_once_second.
  destruct (after_first comma url) as [payload |]; simpl; [| reflexivity].
  unfold base64_b64decode.
  destruct (b64decode rt payload); reflexivity.
Qed.

(** The [try] of the legal_vision extractor: the text between the first
    comma and the next one is kept as it is. *)
Lemma legal_data_uri (url : string) (images : list string)
    (text_parts : list PyVal) :
  LegalVision.extract_data_uri (PStr url) images text_parts
  = Ok (match after_first comma url with
        | Some payload => append_item images (before_first comma payload)
        | None => images
        end, text_parts).
Proof.
  unfold LegalVision.extract_data_uri, py_str_split, list_index. cbn [rbind].
  rewrite split_all_second.
  destruct (after_first comma url); reflexivity.
Qed.

Lemma py_get_dict (entries : list (string * PyVal)) (key : string)
    (default : PyVal) :
  py_get (PDict entries) key default = Ok (lookup_or key entries default).
Proof. reflexivity. Qed.

Lemma image_part_url_inv (item : PyVal) (url : string) :
  image_part_url item = Some url ->
  exists entries inner,
    item = PDict entries
    /\ eq_str (lookup_or "type" entries PNone) "text" = false
    /\ eq_str (lookup_or "type" entries PNone) "image_url" = true
    /\ lookup_or "image_url" entries (PDict []) = PDict inner
    /\ lookup_or "url" inner (PStr EmptyString) = PStr url.
Proof.
  unfold image_part_url.
  destruct item as [| | | | | | entries]; try discriminate.
  destruct (eq_str (lookup_or "type" entries PNone) "image_url") eqn:Ety;
    [| discriminate].
  destruct (lookup_or "image_url" entries (PDict [])) as [| | | | | | inner] eqn:Ei;
    try discriminate.
  destruct (lookup_or "url" inner (PStr EmptyString)) as [| | | | u | |] eqn:Eu;
    try discriminate.
  intros [= ->]. exists entries, inner. repeat split; auto.
  destruct (lookup_or "type" entries PNone); simpl in *; try reflexivity.
  apply String.eqb_eq in Ety. now subst.
Qed.

(** An [image_url] part whose URL is not a [data:image] URI adds nothing. *)
Lemma other_scheme_no_image (rt : Runtime) (item : PyVal) (url : string)
    (images : list bytes) (names : list string) (text_parts : list PyVal) :
  image_part_url item = Some url ->
  startswith "data:image" url = false ->
  Alice.extract_item rt (images, text_parts) item = Ok (images, text_parts)
  /\ LegalVision.extract_item (names, text_parts) item = Ok (names, text_parts).
Proof.
  intros H Hs.
  destruct (image_part_url_inv _ _ H) as (entries & inner & -> & Et & Ei & Eo & Eu).
  unfold Alice.extract_item, LegalVision.extract_item.
  rewrite !py_get_dict. cbn [rbind]. rewrite Et, Ei, Eo.
  rewrite !py_get_dict. cbn [rbind]. rewrite Eu.
  unfold py_startswith. cbn [rbind]. rewrite Hs. now split.
Qed.

(** An [image_url] part with a [data:image] URI, in the alice extractor. *)
Lemma alice_image_part (rt : Runtime) (item : PyVal) (url : string)
    (acc : list bytes * list PyVal) :
  image_part_url item = Some url ->
  startswith "data:image" url = true ->
  Alice.extract_item rt acc item
  = Alice.extract_data_uri rt (PStr url) (fst acc) (snd acc).
Proof.
  intros H Hs. destruct acc as [images text_parts].
  destruct (image_part_url_inv _ _ H) as (entries & inner & -> & Et & Ei & Eo & Eu).
  unfold Alice.extract_item.
  rewrite !py_get_dict. cbn [rbind]. rewrite Et, Ei, Eo.
  rewrite !py_get_dict. cbn [rbind]. rewrite Eu.
  unfold py_startswith. cbn [rbind]. rewrite Hs. reflexivity.
Qed.

(** The same part in the legal_vision extractor. *)
Lemma legal_image_part (item : PyVal) (url : string)
    (acc : list string * list PyVal) :
  image_part_url item = Some url ->
  startswith "data:image" url = true ->
  LegalVision.extract_item acc item
  = LegalVision.extract_data_uri (PStr url) (fst acc) (snd acc).
Proof.
  intros H Hs. destruct acc as [images text_parts].
  destruct (image_part_url_inv _ _ H) as (entries & inner & -> & Et & Ei & Eo & Eu).
  unfold LegalVision.extract_item.
  rewrite !py_get_dict. cbn [rbind]. rewrite Et, Ei, Eo.
  rewrite !py_get_dict. cbn [rbind]. rewrite Eu.
  unfold py_startswith. cbn [rbind]. rewrite Hs. reflexivity.
Qed.

(** *** When the extractors go through *)

Lemma for_each_texts_ok {A I}
    (body : list I * list PyVal -> A -> result (list I * list PyVal))
    (shape : A -> bool) :
  (forall acc x, texts_ok (body acc x) = all_str (snd acc) && shape x) ->
  forall xs acc,
    texts_ok (for_each body xs acc) = all_str (snd acc) && forallb shape xs.
Proof.
  intros Hbody xs; induction xs as [| x xs IH]; intro acc; simpl.
  - now rewrite andb_true_r.
  - specialize (Hbody acc x).
    destruct (body acc x) as [acc' | e]; simpl in *.
    + rewrite IH, Hbody. now rewrite andb_assoc.
    + symmetry in Hbody. now rewrite andb_assoc, Hbody.
Qed.

Lemma alice_item_texts_ok (rt : Runtime) (acc : list bytes * list PyVal)
    (item : PyVal) :
  texts_ok (Alice.extract_item rt acc item)
  = all_str (snd acc) && part_shape_ok item.
Proof.
  destruct acc as [images text_parts].
  destruct item as [| | | | s | | entries]; simpl;
    try (now rewrite andb_true_r).
  - now rewrite all_str_append.
  - fold (lookup_or "type" entries PNone).
    destruct (eq_str (lookup_or "type" entries PNone) "text").
    { simpl. now rewrite all_str_append. }
    destruct (eq_str (lookup_or "type" entries PNone) "image_url");
      [| simpl; now rewrite andb_true_r].
    fold (lookup_or "image_url" entries (PDict [])).
    destruct (lookup_or "image_url" entries (PDict [])) as [| | | | | | inner];
      simpl; try (now rewrite andb_false_r).
    fold (lookup_or "url" inner (PStr EmptyString)).
    destruct (lookup_or "url" inner (PStr EmptyString)) as [| | | | u | |];
      simpl; try (now rewrite andb_false_r).
    destruct (startswith "data:image" u).
    + rewrite alice_data_uri. simpl. now rewrite andb_true_r.
    + simpl. now rewrite andb_true_r.
Qed.

Lemma legal_item_texts_ok (acc : list string * list PyVal) (item : PyVal) :
  texts_ok (LegalVision.extract_item acc item)
  = all_str (snd acc) && part_shape_ok item.
Proof.
  destruct acc as [images text_parts].
  destruct item as [| | | | s | | entries]; simpl;
    try (now rewrite andb_true_r).
  - now rewrite all_str_append.
  - fold (lookup_or "type" entries PNone).
    destruct (eq_str (lookup_or "type" entries PNone) "text").
    { simpl. now rewrite all_str_append. }
    destruct (eq_str (lookup_or "type" entries PNone) "image_url");
      [| simpl; now rewrite andb_true_r].
    fold (lookup_or "image_url" entries (PDict [])).
    destruct (lookup_or "image_url" entries (PDict [])) as [| | | | | | inner];
      simpl; try (now rewrite andb_false_r).
    fold (lookup_or "url" inner (PStr EmptyString)).
    destruct (lookup_or "url" inner (PStr EmptyString)) as [| | | | u | |];
      simpl; try (now rewrite andb_false_r).
    destruct (startswith "data:image" u).
    + rewrite legal_data_uri. simpl. now rewrite andb_true_r.
    + simpl. now rewrite andb_true_r.
Qed.

Lemma alice_message_texts_ok (rt : Runtime) (acc : list bytes * list PyVal)
    (msg : PyVal) :
  texts_ok (Alice.extract_message rt acc msg)
  = all_str (snd acc) && message_shape_ok msg.
Proof.
  unfold Alice.extract_message, message_shape_ok.
  destruct msg as [| | | | | | entries]; simpl; try (now rewrite andb_false_r).
  fold (lookup_or "content" entries (PStr EmptyString)).
  destruct (lookup_or "content" entries (PStr EmptyString)) as [| | | | s | items |];
    simpl; try (now rewrite andb_true_r).
  - now rewrite all_str_append.
  - apply for_each_texts_ok. apply alice_item_texts_ok.
Qed.

Lemma legal_message_texts_ok (acc : list string * list PyVal) (msg : PyVal) :
  texts_ok (LegalVision.extract_message acc msg)
  = all_str (snd acc) && message_shape_ok msg.
Proof.
  unfold LegalVision.extract_message, message_shape_ok.
  destruct msg as [| | | | | | entries]; simpl; try (now rewrite andb_false_r).
  fold (lookup_or "content" entries (PStr EmptyString)).
  destruct (lookup_or "content" entries (PStr EmptyString)) as [| | | | s | items |];
    simpl; try (now rewrite andb_true_r).
  - now rewrite all_str_append.
  - apply for_each_texts_ok. apply legal_item_texts_ok.
Qed.

Lemma alice_extract_ok_iff (rt : Runtime) (messages : list PyVal) :
  is_ok (Alice._extract_images rt messages) = well_shaped messages.
Proof.
  unfold Alice._extract_images, well_shaped.
  pose proof (for_each_texts_ok _ _ (alice_message_texts_ok rt) messages ([], []))
    as H.
  destruct (for_each (Alice.extract_message rt) messages ([], [])) as [acc | e];
    simpl in *; [| exact H].
  rewrite <- H, <- (py_join_all_str " "). now destruct (py_join " " (snd acc)).
Qed.

Lemma legal_extract_ok_iff (messages : list PyVal) :
  is_ok (LegalVision._has_images messages) = well_shaped messages.
Proof.
  unfold LegalVision._has_images, well_shaped.
  pose proof (for_each_texts_ok _ _ legal_message_texts_ok messages ([], []))
    as H.
  destruct (for_each LegalVision.extract_message messages ([], [])) as [acc | e];
    simpl in *; [| exact H].
  rewrite <- H, <- (py_join_all_str " "). now destruct (py_join " " (snd acc)).
Qed.

(* ------------------------------------------------------------------ *)
(** ** The calls to the backend *)

Lemma caught_by_exception (e : exn) : caught_by [Exception] e = true.
Proof. reflexivity. Qed.

Lemma yields_of_fragments (frags : list PyVal) : yields (map Yield frags) = frags.
Proof.
  induction frags as [| v frags IH]; simpl; [reflexivity | now rewrite IH].
Qed.

Lemma posts_of_fragments (frags : list PyVal) : posts (map Yield frags) = [].
Proof. induction frags as [| v frags IH]; simpl; auto. Qed.

Lemma ocr_reads_of_fragments (frags : list PyVal) :
  ocr_reads (map Yield frags) = [].
Proof. induction frags as [| v frags IH]; simpl; auto. Qed.

(** The error fragment names the model. *)
Lemma error_fragment_names_model (model : string) (e : exn) :
  exists text,
    error_fragment model e = PStr text /\ str_contains model text = true.
Proof.
  eexists; split; [reflexivity |].
  apply (str_contains_inside "Error calling " model (": " ++ exn_msg e)).
Qed.

(** One line of the response yields at most one fragment and leaves the
    object alone. *)
Lemma forward_line_out {S} (rt : Runtime) (line : string) (s : S) :
  exists r frags, forward_line rt line s = (r, s, map Yield frags).
Proof.
  unfold forward_line.
  destruct line as [| c line']; [now exists (Ok tt), [] |].
  unfold try_exceptM, bind, lift, ret, yield, emit.
  destruct (json_loads rt (String c line')) as [data | e].
  - destruct (py_in "response" data) as [[|] | e].
    + destruct (py_getitem data "response") as [v | e].
      * now exists (Ok tt), [v].
      * destruct (caught_by [JSONDecodeError] e);
          [now exists (Ok tt), [] | now exists (Raise e), []].
    + now exists (Ok tt), [].
    + destruct (caught_by [JSONDecodeError] e);
        [now exists (Ok tt), [] | now exists (Raise e), []].
  - destruct (caught_by [JSONDecodeError] e);
      [now exists (Ok tt), [] | now exists (Raise e), []].
Qed.

Lemma forward_lines_out {S} (rt : Runtime) (lines : list string) (s : S) :
  exists r frags,
    for_eachM (forward_line rt) lines s = (r, s, map Yield frags).
Proof.
  induction lines as [| line lines IH]; simpl.
  - now exists (Ok tt), [].
  - unfold bind.
    destruct (forward_line_out rt line s) as (r1 & f1 & E1). rewrite E1.
    destruct r1 as [[] | e]; [| now exists (Raise e), f1].
    destruct IH as (r2 & f2 & E2). rewrite E2.
    exists r2, (f1 ++ f2)%list. now rewrite map_app.
Qed.

(** The loop over the lines only yields; it ends with an exception whenever
    the line iterator does. *)
Lemma iter_lines_loop_out {S} (rt : Runtime) (r : response) (s : S) :
  exists res frags,
    iter_lines_loop rt r s = (res, s, map Yield frags)
    /\ (resp_lines_exn r <> None -> exists e, res = Raise e).
Proof.
  unfold iter_lines_loop, bind.
  destruct (forward_lines_out rt (resp_lines r) s) as (r1 & f1 & E1).
  rewrite E1.
  destruct r1 as [[] | e].
  - destruct (resp_lines_exn r) as [e |]; simpl.
    + exists (Raise e), f1. rewrite app_nil_r. split; [reflexivity | eauto].
    + exists (Ok tt), f1. rewrite app_nil_r. split; [reflexivity | congruence].
  - exists (Raise e), f1. split; [reflexivity | eauto].
Qed.

(** The [try] of a streaming call, as both pipelines write it. *)
Lemma streaming_try_out {S} (rt : Runtime) (req : request) (model : string)
    (s : S) :
  exists frags,
    try_exceptM
      (emit (HttpPost req) ;;;
       response <~ lift (requests_post rt req) ;;
       lift (raise_for_status response) ;;;
       iter_lines_loop rt response)
      [Exception]
      (fun e => yield (error_fragment model e)) s
    = (Ok tt, s, HttpPost req :: map Yield frags)
    /\ match transport_failure rt req with
       | Some (AtRequest e) => frags = [error_fragment model e]
       | Some (MidStream _) =>
           exists forwarded e, frags = (forwarded ++ [error_fragment model e])%list
       | None => True
       end.
Proof.
  unfold transport_failure, try_exceptM, bind, emit, lift, yield.
  destruct (requests_post rt req) as [r | e]; simpl.
  2: { exists [error_fragment model e]. now split. }
  destruct (raise_for_status r) as [[] | e]; simpl.
  2: { exists [error_fragment model e]. now split. }
  destruct (iter_lines_loop_out rt r s) as (res & frags & E & Hexn).
  rewrite E. destruct res as [[] | e]; simpl.
  - exists frags. split; [reflexivity |].
    destruct (resp_lines_exn r) as [e0 |]; [| exact I].
    destruct Hexn as (e & He); [congruence | discriminate].
  - exists (frags ++ [error_fragment model e])%list.
    rewrite map_app. split; [reflexivity |].
    destruct (resp_lines_exn r); [now exists frags, e | exact I].
Qed.

Lemma alice_stream_unfold (rt : Runtime) (prompt : string)
    (self : Alice.Pipeline) :
  Alice._call_ollama_stream rt prompt self
  = try_exceptM
      (emit (HttpPost (Alice.stream_request (Alice.valves self) prompt)) ;;;
       response <~ lift (requests_post rt
                           (Alice.stream_request (Alice.valves self) prompt)) ;;
       lift (raise_for_status response) ;;;
       iter_lines_loop rt response)
      [Exception]
      (fun e => yield (error_fragment (Alice.REASONING_MODEL (Alice.valves self)) e))
      self.
Proof.
  unfold Alice._call_ollama_stream, bind at 1, get.
  destruct (try_exceptM _ _ _ self) as [[r s] t]. now rewrite app_nil_l.
Qed.

Lemma legal_stream_unfold (rt : Runtime) (model prompt : string)
    (images : option (list string)) (self : LegalVision.Pipeline) :
  LegalVision._call_ollama rt model prompt images true self
  = try_exceptM
      (emit (HttpPost (LegalVision.make_request (LegalVision.valves self)
                         model prompt images true true)) ;;;
       response <~ lift (requests_post rt
                           (LegalVision.make_request (LegalVision.valves self)
                              model prompt images true true)) ;;
       lift (raise_for_status response) ;;;
       iter_lines_loop rt response)
      [Exception]
      (fun e => yield (error_fragment model e))
      self.
Proof.
  unfold LegalVision._call_ollama, bind at 1, get.
  destruct (try_exceptM _ _ _ self) as [[r s] t]. now rewrite app_nil_l.
Qed.

(** Every streaming call ends without an exception, with one request sent,
    fragments after it, and the object as it was. *)
Lemma run_call_out (rt : Runtime) (c : streaming_call) :
  exists frags,
    run_call rt c = (Ok tt, HttpPost (call_request c) :: map Yield frags)
    /\ call_keeps_state rt c
    /\ match transport_failure rt (call_request c) with
       | Some (AtRequest e) => frags = [error_fragment (call_model c) e]
       | Some (MidStream _) =>
           exists forwarded e,
             frags = (forwarded ++ [error_fragment (call_model c) e])%list
       | None => True
       end.
Proof.
  destruct c as [self prompt | self model prompt images];
    unfold run_call, call_keeps_state, call_request, call_model.
  - rewrite alice_stream_unfold.
    destruct (streaming_try_out rt
                (Alice.stream_request (Alice.valves self) prompt)
                (Alice.REASONING_MODEL (Alice.valves self)) self)
      as (frags & E & H).
    rewrite E. exists frags. repeat split; assumption.
  - rewrite legal_stream_unfold.
    destruct (streaming_try_out rt
                (LegalVision.make_request (LegalVision.valves self) model
                   prompt images true true) model self)
      as (frags & E & H).
    rewrite E. exists frags. repeat split; assumption.
Qed.

(** C1, as amended. When the transport of a streaming call fails, in either
    pipeline, the sequence ends with exactly one fragment
    [Error calling <model>: <message>], which contains the identifier of the
    model, after a single request and with nothing raised. When the failure
    is at the request ([requests.post] raises, or the status is 4xx or 5xx)
    that fragment is the only element and carries the message of that
    failure; when the connection breaks while the lines are read, the
    fragments already forwarded come before it. *)
Theorem stream_failure_one_error_fragment (rt : Runtime) (c : streaming_call)
    (f : failure) :
  transport_failure rt (call_request c) = Some f ->
  exists forwarded e,
    run_call rt c
    = (Ok tt,
       HttpPost (call_request c)
       :: (map Yield forwarded ++ [Yield (error_fragment (call_model c) e)])%list)
    /\ (forall e0, f = AtRequest e0 -> forwarded = [] /\ e = e0)
    /\ (exists text,
          error_fragment (call_model c) e = PStr text
          /\ str_contains (call_model c) text = true)
    /\ posts (snd (run_call rt c)) = [call_request c]
    /\ call_keeps_state rt c.
Proof.
  intro Hf.
  destruct (run_call_out rt c) as (frags & E & Hkeep & Hfail).
  rewrite Hf in Hfail.
  assert (exists forwarded e,
             frags = (forwarded ++ [error_fragment (call_model c) e])%list
             /\ (forall e0, f = AtRequest e0 -> forwarded = [] /\ e = e0))
    as (forwarded & e & -> & Hreq).
  { destruct f as [e | e0].
    - exists [], e. split; [exact Hfail |]. now intros e0 [= ->].
    - destruct Hfail as (forwarded & e & ->). exists forwarded, e.
      split; [reflexivity | discriminate]. }
  exists forwarded, e. rewrite E.
  split; [now rewrite map_app |].
  split; [exact Hreq |].
  split; [apply error_fragment_names_model |].
  split; [| exact Hkeep].
  cbn [snd posts flat_map]. fold (posts (map Yield (forwarded ++ [error_fragment (call_model c) e]))).
  now rewrite posts_of_fragments.
Qed.

Lemma stream_failure_one_error_fragment_witness :
  transport_failure (Sample.runtime true Sample.failing_status)
    (call_request (LegalStream LegalVision.__init__ "deepseek-r1:8b" "Q" None))
  = Some (AtRequest
            (MkExn RequestException
               "500 Server Error: Internal Server Error for url: http://host.docker.internal:11434/api/generate"))
  /\ exists forwarded e,
       run_call (Sample.runtime true Sample.failing_status)
         (LegalStream LegalVision.__init__ "deepseek-r1:8b" "Q" None)
       = (Ok tt,
          HttpPost
            (call_request
               (LegalStream LegalVision.__init__ "deepseek-r1:8b" "Q" None))
          :: (map Yield forwarded
              ++ [Yield (error_fragment "deepseek-r1:8b" e)])%list)
       /\ forwarded = [].
Proof.
  split; [reflexivity |].
  destruct (stream_failure_one_error_fragment
              (Sample.runtime true Sample.failing_status)
              (LegalStream LegalVision.__init__ "deepseek-r1:8b" "Q" None)
              _ eq_refl)
    as (forwarded & e & E & Hreq & _).
  exists forwarded, e. split; [exact E |].
  exact (proj1 (Hreq _ eq_refl)).
Defined.

(** C1, as stated, fails. The connection breaks after the first line of the
    answer: the sequence is that fragment and then the error, two elements.
    And a 304, which is not a 2xx status, raises nothing: no fragment at
    all. *)
Lemma stream_failure_counterexample :
  transport_failure (Sample.runtime true Sample.broken_stream)
    (call_request (AliceStream Alice.__init__ "Q"))
  = Some (MidStream (MkExn RequestException "Connection broken"))
  /\ yields (snd (run_call (Sample.runtime true Sample.broken_stream)
                    (AliceStream Alice.__init__ "Q")))
     = [PStr "Hi"; PStr "Error calling deepseek-r1:8b: Connection broken"]
  /\ ~ (exists fragment,
          yields (snd (run_call (Sample.runtime true Sample.broken_stream)
                         (AliceStream Alice.__init__ "Q")))
          = [fragment])
  /\ yields (snd (run_call (Sample.runtime true Sample.not_modified)
                    (AliceStream Alice.__init__ "Q")))
     = [].
Proof.
  repeat split; try reflexivity.
  intros (fragment & H). vm_compute in H. discriminate H.
Qed.

Lemma alice_stream_out (rt : Runtime) (prompt : string) (self : Alice.Pipeline) :
  exists frags,
    Alice._call_ollama_stream rt prompt self
    = (Ok tt, self,
       HttpPost (Alice.stream_request (Alice.valves self) prompt)
       :: map Yield frags).
Proof.
  destruct (run_call_out rt (AliceStream self prompt)) as (frags & E & Hs & _).
  exists frags. unfold run_call, call_keeps_state, result_of, trace_of, state_of in *.
  simpl in *.
  destruct (Alice._call_ollama_stream rt prompt self) as [[r s] t].
  simpl in *. congruence.
Qed.

Lemma legal_stream_out (rt : Runtime) (model prompt : string)
    (images : option (list string)) (self : LegalVision.Pipeline) :
  exists frags,
    LegalVision._call_ollama rt model prompt images true self
    = (Ok tt, self,
       HttpPost (LegalVision.make_request (LegalVision.valves self) model
                   prompt images true true)
       :: map Yield frags).
Proof.
  destruct (run_call_out rt (LegalStream self model prompt images))
    as (frags & E & Hs & _).
  exists frags. unfold run_call, call_keeps_state, result_of, trace_of, state_of in *.
  simpl in *.
  destruct (LegalVision._call_ollama rt model prompt images true self)
    as [[r s] t].
  simpl in *. congruence.
Qed.

(** The non-streaming call of the vision model: one request, and a value
    returned whatever happens. *)
Lemma legal_sync_out (rt : Runtime) (model prompt : string)
    (images : option (list string)) (self : LegalVision.Pipeline) :
  exists answer,
    LegalVision._call_ollama_sync rt model prompt images self
    = (Ok answer, self,
       [HttpPost (LegalVision.make_request (LegalVision.valves self) model
                    prompt images false false)]).
Proof.
  unfold LegalVision._call_ollama_sync, try_exceptM, bind, get, emit, lift, ret.
  simpl.
  destruct (requests_post rt _) as [r | e]; simpl; [| eauto].
  destruct (raise_for_status r) as [[] | e]; simpl; [| eauto].
  destruct (resp_json r) as [data | e]; simpl; [| eauto].
  destruct (py_get data "response" (PStr EmptyString)) as [v | e]; simpl; eauto.
Qed.

(** The non-streaming call of the vision model: one request, and the answer
    of the backend or the error text returned. *)
Lemma legal_sync_exact (rt : Runtime) (model prompt : string)
    (images : option (list string)) (self : LegalVision.Pipeline) :
  LegalVision._call_ollama_sync rt model prompt images self
  = (Ok (sync_answer rt
           (LegalVision.make_request (LegalVision.valves self) model prompt
              images false false) model),
     self,
     [HttpPost (LegalVision.make_request (LegalVision.valves self) model
                  prompt images false false)]).
Proof.
  unfold LegalVision._call_ollama_sync, sync_answer, try_exceptM, bind, get,
    emit, lift, ret.
  simpl.
  destruct (requests_post rt _) as [r | e]; simpl; [| reflexivity].
  destruct (raise_for_status r) as [[] | e]; simpl; [| reflexivity].
  destruct (resp_json r) as [data | e]; simpl; [| reflexivity].
  destruct data; reflexivity.
Qed.

(** [_ocr_image] on one image. *)
Lemma ocr_image_out (rt : Runtime) (image : bytes) (self : Alice.Pipeline) :
  Alice._ocr_image rt image self
  = (Ok (ocr_output rt image), self, ocr_events rt [image]).
Proof.
  unfold Alice._ocr_image, ocr_output, ocr_events, recognized_or_error.
  destruct (TESSERACT_AVAILABLE rt); simpl; [| reflexivity].
  unfold try_exceptM, bind, emit, lift, ret.
  destruct (ocr_read rt image); reflexivity.
Qed.

Lemma ocr_events_cons (rt : Runtime) (image : bytes) (images : list bytes) :
  ocr_events rt (image :: images)
  = (ocr_events rt [image] ++ ocr_events rt images)%list.
Proof. unfold ocr_events. now destruct (TESSERACT_AVAILABLE rt). Qed.

(** The OCR loop: the images one after the other, in the order of the list,
    each output appended to the list of texts. *)
Lemma ocr_loop_out (rt : Runtime) (images : list bytes) (all_text : list string)
    (self : Alice.Pipeline) :
  Alice.ocr_loop rt images all_text self
  = (Ok (all_text ++ map (ocr_output rt) images)%list, self,
     ocr_events rt images).
Proof.
  revert all_text; induction images as [| image images IH]; intro all_text.
  - simpl. unfold ret, ocr_events. rewrite app_nil_r.
    now destruct (TESSERACT_AVAILABLE rt).
  - cbn [Alice.ocr_loop]. unfold bind at 1.
    rewrite ocr_image_out, IH, (ocr_events_cons rt image images).
    unfold append_item. rewrite <- app_assoc. reflexivity.
Qed.

(* ------------------------------------------------------------------ *)
(** ** The dispatch *)

Lemma alice_pipe_raises (rt : Runtime) (user_message : PyVal) (model_id : string)
    (messages : list PyVal) (body : PyVal) (self : Alice.Pipeline) (e : exn) :
  Alice._extract_images rt messages = Raise e ->
  Alice.pipe rt user_message model_id messages body self = (Raise e, self, []).
Proof.
  intro H. unfold Alice.pipe, bind at 1, lift. now rewrite H.
Qed.

Lemma alice_pipe_no_images (rt : Runtime) (user_message : PyVal)
    (model_id : string) (messages : list PyVal) (body : PyVal)
    (self : Alice.Pipeline) (text : string) :
  Alice._extract_images rt messages = Ok ([], text) ->
  Alice.pipe rt user_message model_id messages body self
  = Alice._call_ollama_stream rt (Alice.bare_prompt (fmt rt user_message)) self.
Proof.
  intro H. unfold Alice.pipe, bind at 1, lift. rewrite H.
  cbn [nonempty].
  now destruct (Alice._call_ollama_stream rt _ self) as [[r s] t].
Qed.

Lemma alice_pipe_images (rt : Runtime) (user_message : PyVal)
    (model_id : string) (messages : list PyVal) (body : PyVal)
    (self : Alice.Pipeline) (images : list bytes) (text : string) :
  Alice._extract_images rt messages = Ok (images, text) ->
  images <> [] ->
  exists frags,
    Alice.pipe rt user_message model_id messages body self
    = (Ok tt, self,
       (Yield (PStr Alice.reading_header)
        :: ocr_events rt images
        ++ [Yield (PStr (Alice.extracted_fragment
                           (String.concat (nl ++ nl)
                              (map (ocr_output rt) images))));
            Yield (PStr Alice.analyzing_header);
            HttpPost
              (Alice.stream_request (Alice.valves self)
                 (Alice.image_prompt
                    (String.concat (nl ++ nl) (map (ocr_output rt) images))
                    (fmt rt (if truthy user_message then user_message
                             else PStr Alice.fallback_question))))]
        ++ map Yield frags)%list).
Proof.
  intros H Hne.
  destruct (alice_stream_out rt
              (Alice.image_prompt
                 (String.concat (nl ++ nl) (map (ocr_output rt) images))
                 (fmt rt (if truthy user_message then user_message
                          else PStr Alice.fallback_question))) self)
    as (frags & E).
  exists frags.
  unfold Alice.pipe, bind at 1, lift. rewrite H.
  destruct images as [| image images]; [congruence |].
  cbn [nonempty]. unfold bind, yield, emit.
  rewrite ocr_loop_out. cbn [app]. rewrite E.
  reflexivity.
Qed.

Lemma legal_flag (messages : list PyVal) (flag : bool) (images : list string)
    (text : string) :
  LegalVision._has_images messages = Ok (flag, images, text) ->
  flag = nonempty images.
Proof.
  unfold LegalVision._has_images.
  destruct (for_each LegalVision.extract_message messages ([], []))
    as [acc | e]; simpl; [| discriminate].
  destruct (py_join " " (snd acc)); simpl; [| discriminate].
  intros [= <- <- <-]. now destruct (fst acc).
Qed.

Lemma legal_pipe_raises (rt : Runtime) (user_message : PyVal) (model_id : string)
    (messages : list PyVal) (body : PyVal) (self : LegalVision.Pipeline)
    (e : exn) :
  LegalVision._has_images messages = Raise e ->
  LegalVision.pipe rt user_message model_id messages body self
  = (Raise e, self, []).
Proof.
  intro H. unfold LegalVision.pipe, bind at 1, lift. now rewrite H.
Qed.

Lemma legal_pipe_no_images (rt : Runtime) (user_message : PyVal)
    (model_id : string) (messages : list PyVal) (body : PyVal)
    (self : LegalVision.Pipeline) (flag : bool) (text : string) :
  LegalVision._has_images messages = Ok (flag, [], text) ->
  LegalVision.pipe rt user_message model_id messages body self
  = LegalVision._call_ollama rt
      (LegalVision.REASONING_MODEL (LegalVision.valves self))
      (LegalVision.bare_prompt (fmt rt user_message)) None true self.
Proof.
  intro H. pose proof (legal_flag _ _ _ _ H) as ->.
  unfold LegalVision.pipe, bind at 1, lift. rewrite H.
  cbn [nonempty]. unfold bind at 1, get.
  destruct (LegalVision._call_ollama rt _ _ None true self) as [[r s] t].
  reflexivity.
Qed.

Lemma legal_pipe_images (rt : Runtime) (user_message : PyVal)
    (model_id : string) (messages : list PyVal) (body : PyVal)
    (self : LegalVision.Pipeline) (flag : bool) (images : list string)
    (text : string) :
  LegalVision._has_images messages = Ok (flag, images, text) ->
  images <> [] ->
  exists description frags,
    LegalVision.pipe rt user_message model_id messages body self
    = (Ok tt, self,
       [Yield (PStr LegalVision.analyzing_header);
        HttpPost
          (LegalVision.make_request (LegalVision.valves self)
             (LegalVision.VISION_MODEL (LegalVision.valves self))
             (LegalVision.vision_prompt
                (fmt rt (if truthy user_message then user_message
                         else PStr text)))
             (Some images) false false);
        Yield (PStr (LegalVision.analysis_fragment (fmt rt description)));
        Yield (PStr LegalVision.processing_header);
        HttpPost
          (LegalVision.make_request (LegalVision.valves self)
             (LegalVision.REASONING_MODEL (LegalVision.valves self))
             (LegalVision.image_prompt (fmt rt description)
                (fmt rt (if truthy user_message then user_message
                         else PStr LegalVision.fallback_question)))
             None true true)]
       ++ map Yield frags)%list.
Proof.
  intros H Hne. pose proof (legal_flag _ _ _ _ H) as ->.
  destruct (legal_sync_out rt
              (LegalVision.VISION_MODEL (LegalVision.valves self))
              (LegalVision.vision_prompt
                 (fmt rt (if truthy user_message then user_message
                          else PStr text)))
              (Some images) self)
    as (description & Esync).
  destruct (legal_stream_out rt
              (LegalVision.REASONING_MODEL (LegalVision.valves self))
              (LegalVision.image_prompt (fmt rt description)
                 (fmt rt (if truthy user_message then user_message
                          else PStr LegalVision.fallback_question)))
              None self)
    as (frags & Estream).
  exists description, frags.
  unfold LegalVision.pipe, bind at 1, lift. rewrite H.
  destruct images as [| image images]; [congruence |].
  cbn [nonempty]. unfold bind, get, yield, emit.
  rewrite Esync. cbn [app]. rewrite Estream. reflexivity.
Qed.

(** The image branch of legal_vision, given what the vision call returns. *)
Lemma legal_pipe_images_exact (rt : Runtime) (user_message : PyVal)
    (model_id : string) (messages : list PyVal) (body : PyVal)
    (self : LegalVision.Pipeline) (flag : bool) (images : list string)
    (text : string) (description : PyVal) :
  LegalVision._has_images messages = Ok (flag, images, text) ->
  images <> [] ->
  LegalVision._call_ollama_sync rt
    (LegalVision.VISION_MODEL (LegalVision.valves self))
    (LegalVision.vision_prompt
       (fmt rt (if truthy user_message then user_message else PStr text)))
    (Some images) self
  = (Ok description, self,
     [HttpPost
        (LegalVision.make_request (LegalVision.valves self)
           (LegalVision.VISION_MODEL (LegalVision.valves self))
           (LegalVision.vision_prompt
              (fmt rt (if truthy user_message then user_message
                       else PStr text)))
           (Some images) false false)]) ->
  exists frags,
    LegalVision.pipe rt user_message model_id messages body self
    = (Ok tt, self,
       [Yield (PStr LegalVision.analyzing_header);
        HttpPost
          (LegalVision.make_request (LegalVision.valves self)
             (LegalVision.VISION_MODEL (LegalVision.valves self))
             (LegalVision.vision_prompt
                (fmt rt (if truthy user_message then user_message
                         else PStr text)))
             (Some images) false false);
        Yield (PStr (LegalVision.analysis_fragment (fmt rt description)));
        Yield (PStr LegalVision.processing_header);
        HttpPost
          (LegalVision.make_request (LegalVision.valves self)
             (LegalVision.REASONING_MODEL (LegalVision.valves self))
             (LegalVision.image_prompt (fmt rt description)
                (fmt rt (if truthy user_message then user_message
                         else PStr LegalVision.fallback_question)))
             None true true)]
       ++ map Yield frags)%list.
Proof.
  intros H Hne Esync. pose proof (legal_flag _ _ _ _ H) as ->.
  destruct (legal_stream_out rt
              (LegalVision.REASONING_MODEL (LegalVision.valves self))
              (LegalVision.image_prompt (fmt rt description)
                 (fmt rt (if truthy user_message then user_message
                          else PStr LegalVision.fallback_question)))
              None self)
    as (frags & Estream).
  exists frags.
  unfold LegalVision.pipe, bind at 1, lift. rewrite H.
  destruct images as [| image images]; [congruence |].
  cbn [nonempty]. unfold bind, get, yield, emit.
  rewrite Esync. cbn [app]. rewrite Estream. reflexivity.
Qed.

(* ------------------------------------------------------------------ *)
(** ** The claims on the extractors *)

Lemma text_only_loop_alice (rt : Runtime) (messages : list PyVal)
    (strs : list string) :
  Forall2 (fun m s => py_get m "content" (PStr EmptyString) = Ok (PStr s))
    messages strs ->
  forall images seen,
    for_each (Alice.extract_message rt) messages (images, map PStr seen)
    = Ok (images, map PStr (seen ++ strs)%list).
Proof.
  induction 1 as [| m s messages strs Hm _ IH]; intros images seen; simpl.
  - now rewrite app_nil_r.
  - unfold Alice.extract_message at 1. rewrite Hm. simpl.
    replace (append_item (map PStr seen) (PStr s))
      with (map PStr (seen ++ [s])%list)
      by (unfold append_item; now rewrite map_app).
    rewrite IH, <- app_assoc. reflexivity.
Qed.

Lemma text_only_loop_legal (messages : list PyVal) (strs : list string) :
  Forall2 (fun m s => py_get m "content" (PStr EmptyString) = Ok (PStr s))
    messages strs ->
  forall images seen,
    for_each LegalVision.extract_message messages (images, map PStr seen)
    = Ok (images, map PStr (seen ++ strs)%list).
Proof.
  induction 1 as [| m s messages strs Hm _ IH]; intros images seen; simpl.
  - now rewrite app_nil_r.
  - unfold LegalVision.extract_message at 1. rewrite Hm. simpl.
    replace (append_item (map PStr seen) (PStr s))
      with (map PStr (seen ++ [s])%list)
      by (unfold append_item; now rewrite map_app).
    rewrite IH, <- app_assoc. reflexivity.
Qed.

(** C5. When the content of every message is a string, both extractors
    return no image and the strings joined with single spaces, in the order
    of the messages. *)
Theorem text_only_messages (rt : Runtime) (messages : list PyVal)
    (strs : list string) :
  Forall2 (fun m s => py_get m "content" (PStr EmptyString) = Ok (PStr s))
    messages strs ->
  Alice._extract_images rt messages = Ok ([], String.concat " " strs)
  /\ LegalVision._has_images messages
     = Ok (false, [], String.concat " " strs).
Proof.
  intro H. split.
  - unfold Alice._extract_images.
    pose proof (text_only_loop_alice rt _ _ H [] []) as L. simpl in L.
    rewrite L. simpl.
    unfold py_join. now rewrite strs_of_strings.
  - unfold LegalVision._has_images.
    pose proof (text_only_loop_legal _ _ H [] []) as L. simpl in L.
    rewrite L. simpl.
    unfold py_join. now rewrite strs_of_strings.
Qed.

Lemma text_only_messages_witness :
  Alice._extract_images (Sample.runtime true Sample.healthy)
    [Sample.text_message "What is"; Sample.text_message "the rule";
     PDict [("role", PStr "user")]; Sample.text_message "against perpetuities?"]
  = Ok ([], "What is the rule  against perpetuities?")
  /\ LegalVision._has_images
       [Sample.text_message "What is"; Sample.text_message "the rule";
        PDict [("role", PStr "user")];
        Sample.text_message "against perpetuities?"]
     = Ok (false, [], "What is the rule  against perpetuities?").
Proof.
  apply (text_only_messages (Sample.runtime true Sample.healthy) _
           ["What is"; "the rule"; EmptyString; "against perpetuities?"]).
  repeat constructor.
Defined.



(** Replacing one message by another that the loop treats alike. *)
Lemma for_each_replace {A S} (body : S -> A -> result S) (before after : list A)
    (x y : A) :
  (forall acc, body acc x = body acc y) ->
  forall acc,
    for_each body (before ++ x :: after)%list acc
    = for_each body (before ++ y :: after)%list acc.
Proof.
  intros Hxy acc. rewrite !for_each_app.
  destruct (for_each body before acc) as [acc' | e]; simpl; [| reflexivity].
  now rewrite Hxy.
Qed.

(** C3, as amended. In a message whose content is a list, take an
    [image_url] part with a [data:image] URL. In the alice pipeline, when
    the URL has no comma or its payload does not decode, the extractor
    returns what it returns without that part, images, text and exception
    alike. In the legal_vision pipeline, which decodes nothing, this holds
    when the URL has no comma; a URL with a comma always adds an entry to the
    images, whether its payload decodes or not. *)
Theorem malformed_image_part_dropped (rt : Runtime)
    (before after : list PyVal) (m m' : PyVal) (pre post : list PyVal)
    (bad : PyVal) (url : string) :
  image_part_url bad = Some url ->
  startswith "data:image" url = true ->
  py_get m "content" (PStr EmptyString) = Ok (PList (pre ++ bad :: post)%list) ->
  py_get m' "content" (PStr EmptyString) = Ok (PList (pre ++ post)%list) ->
  (malformed_data_uri rt url = true ->
   Alice._extract_images rt (before ++ m :: after)%list
   = Alice._extract_images rt (before ++ m' :: after)%list)
  /\ (after_first comma url = None ->
      LegalVision._has_images (before ++ m :: after)%list
      = LegalVision._has_images (before ++ m' :: after)%list)
  /\ (after_first comma url <> None ->
      forall images text_parts,
      exists entry,
        LegalVision.extract_item (images, text_parts) bad
        = Ok (append_item images entry, text_parts)).
Proof.
  intros Hpart Hdata Hm Hm'. split; [| split].
  - intro Hbad. unfold Alice._extract_images.
    rewrite (for_each_replace (Alice.extract_message rt) before after m m');
      [reflexivity |].
    intro acc. unfold Alice.extract_message. rewrite Hm, Hm'. simpl.
    apply for_each_skip. intros [images text_parts].
    rewrite (alice_image_part rt bad url _ Hpart Hdata), alice_data_uri.
    unfold malformed_data_uri in Hbad. simpl.
    destruct (after_first comma url) as [payload |]; [| reflexivity].
    destruct (b64decode rt payload); [discriminate | reflexivity].
  - intro Hno. unfold LegalVision._has_images.
    rewrite (for_each_replace LegalVision.extract_message before after m m');
      [reflexivity |].
    intro acc. unfold LegalVision.extract_message. rewrite Hm, Hm'. simpl.
    apply for_each_skip. intros [images text_parts].
    rewrite (legal_image_part bad url _ Hpart Hdata), legal_data_uri.
    simpl. now rewrite Hno.
  - intros Hcomma images text_parts.
    rewrite (legal_image_part bad url _ Hpart Hdata), legal_data_uri. simpl.
    destruct (after_first comma url) as [payload |]; [| congruence].
    now exists (before_first comma payload).
Qed.

Lemma malformed_image_part_dropped_witness :
  Alice._extract_images (Sample.runtime true Sample.healthy)
    ([Sample.text_message "Look:"]
     ++ Sample.parts_message
          ([Sample.text_part "first"]
           ++ Sample.image_part "data:image/png;base64,abc"
              :: [Sample.image_part "data:image/png;base64,iWhp";
                  Sample.text_part "second"])
        :: [Sample.text_message "thanks"])%list
  = Alice._extract_images (Sample.runtime true Sample.healthy)
      ([Sample.text_message "Look:"]
       ++ Sample.parts_message
            ([Sample.text_part "first"]
             ++ [Sample.image_part "data:image/png;base64,iWhp";
                 Sample.text_part "second"])
          :: [Sample.text_message "thanks"])%list.
Proof.
  apply (proj1 (malformed_image_part_dropped
                  (Sample.runtime true Sample.healthy)
                  [Sample.text_message "Look:"] [Sample.text_message "thanks"]
                  (Sample.parts_message
                     ([Sample.text_part "first"]
                      ++ Sample.image_part "data:image/png;base64,abc"
                         :: [Sample.image_part "data:image/png;base64,iWhp";
                             Sample.text_part "second"]))
                  (Sample.parts_message
                     ([Sample.text_part "first"]
                      ++ [Sample.image_part "data:image/png;base64,iWhp";
                          Sample.text_part "second"]))
                  [Sample.text_part "first"]
                  [Sample.image_part "data:image/png;base64,iWhp";
                   Sample.text_part "second"]
                  (Sample.image_part "data:image/png;base64,abc")
                  "data:image/png;base64,abc"
                  eq_refl eq_refl eq_refl eq_refl)).
  reflexivity.
Defined.

(** C3, as stated, fails in the legal_vision pipeline: [abc] is not valid
    base64 (the decoder refuses it), yet the part that carries it is kept as
    an image, and the result differs from the one without the part. *)
Lemma undecodable_payload_kept_counterexample :
  malformed_data_uri (Sample.runtime true Sample.healthy)
    "data:image/png;base64,abc" = true
  /\ LegalVision._has_images
       [Sample.parts_message
          [Sample.text_part "Q"; Sample.image_part "data:image/png;base64,abc"]]
     = Ok (true, ["abc"], "Q")
  /\ LegalVision._has_images [Sample.parts_message [Sample.text_part "Q"]]
     = Ok (false, [], "Q").
Proof. repeat split; reflexivity. Qed.

(** C4 at the input where the two pipelines part: with a second comma in
    the URL, all that follows the first comma is [AAAA,BBBB]; the alice
    extractor decodes all of it and the legal_vision extractor keeps [AAAA]
    only. *)
Theorem legal_payload_cut_at_second_comma :
  after_first comma "data:image/png;base64,AAAA,BBBB" = Some "AAAA,BBBB"
  /\ LegalVision._has_images
       [Sample.parts_message
          [Sample.image_part "data:image/png;base64,AAAA,BBBB"]]
     = Ok (true, ["AAAA"], EmptyString)
  /\ Alice._extract_images (Sample.runtime true Sample.healthy)
       [Sample.parts_message
          [Sample.image_part "data:image/png;base64,AAAA,BBBB"]]
     = Ok ([[x00; x00; x00; x04; x10; x41]], EmptyString)
  /\ Sample.python_b64decode "AAAA,BBBB" = Some [x00; x00; x00; x04; x10; x41]
  /\ Sample.python_b64decode "AAAA" = Some [x00; x00; x00].
Proof. repeat split; reflexivity. Qed.

(** What C4 says of the payload, for every URL and in each pipeline: the
    alice extractor gives the decoder all that follows the first comma, the
    legal_vision extractor keeps what lies between the first comma and the
    next one. *)
Lemma data_uri_payload (rt : Runtime) (item : PyVal) (url payload : string)
    (images : list bytes) (names : list string) (text_parts : list PyVal) :
  image_part_url item = Some url ->
  startswith "data:image" url = true ->
  after_first comma url = Some payload ->
  Alice.extract_item rt (images, text_parts) item
  = Ok (match b64decode rt payload with
        | Some image => append_item images image
        | None => images
        end, text_parts)
  /\ LegalVision.extract_item (names, text_parts) item
     = Ok (append_item names (before_first comma payload), text_parts).
Proof.
  intros Hpart Hdata Hpay. split.
  - rewrite (alice_image_part rt item url _ Hpart Hdata), alice_data_uri.
    simpl. now rewrite Hpay.
  - rewrite (legal_image_part item url _ Hpart Hdata), legal_data_uri.
    simpl. now rewrite Hpay.
Qed.

(* ------------------------------------------------------------------ *)
(** ** The claims on the two stages and on the dispatch *)

Lemma posts_app (t1 t2 : list event) :
  posts (t1 ++ t2)%list = (posts t1 ++ posts t2)%list.
Proof. apply flat_map_app. Qed.


Lemma posts_of_ocr_events (rt : Runtime) (images : list bytes) :
  posts (ocr_events rt images) = [].
Proof.
  unfold ocr_events. destruct (TESSERACT_AVAILABLE rt); [| reflexivity].
  induction images as [| image images IH]; simpl; auto.
Qed.

(** C6. When the extractor finds no image, [pipe] is the streaming call on
    the bare-question prompt and nothing else: the first thing it does is
    the one request it sends, to the reasoning model, whose prompt is the
    bare-question template with the message of the user in it and nothing
    else of the conversation; what it yields is what that call yields, so no
    header; no image goes to Tesseract and no request goes to the vision
    model. *)
Theorem no_images_bare_prompt (rt : Runtime) (user_message : PyVal)
    (model_id : string) (messages : list PyVal) (body : PyVal)
    (alice : Alice.Pipeline) (legal : LegalVision.Pipeline) :
  (forall text,
     Alice._extract_images rt messages = Ok ([], text) ->
     let run := Alice.pipe rt user_message model_id messages body alice in
     let req :=
       {| req_url := Alice.OLLAMA_HOST (Alice.valves alice) ++ "/api/generate";
          req_json :=
            {| p_model := Alice.REASONING_MODEL (Alice.valves alice);
               p_prompt :=
                 "You are a legal reasoning assistant for Texas bar exam preparation.

Question: "
                 ++ fmt rt user_message
                 ++ "

Provide thorough legal analysis:
1. Identify the legal issue(s)
2. State the applicable rule(s) of law  
3. Apply the rule to the facts
4. Reach a conclusion";
               p_stream := true;
               p_temperature := Alice.TEMPERATURE (Alice.valves alice);
               p_images := None |};
          req_stream := true;
          req_timeout := 300 |} in
     run = Alice._call_ollama_stream rt
             (Alice.bare_prompt (fmt rt user_message)) alice
     /\ posts (trace_of run) = [req]
     /\ ocr_reads (trace_of run) = []
     /\ exists frags, trace_of run = HttpPost req :: map Yield frags)
  /\ (forall flag text,
        LegalVision._has_images messages = Ok (flag, [], text) ->
        let run :=
          LegalVision.pipe rt user_message model_id messages body legal in
        let req :=
          {| req_url :=
               LegalVision.OLLAMA_HOST (LegalVision.valves legal)
               ++ "/api/generate";
             req_json :=
               {| p_model := LegalVision.REASONING_MODEL (LegalVision.valves legal);
                  p_prompt :=
                    "You are a legal reasoning assistant helping with Texas bar exam preparation.

Question: "
                    ++ fmt rt user_message
                    ++ "

Provide thorough legal analysis. If this is a legal question:
1. Identify the legal issue(s)
2. State the applicable rule(s) of law  
3. Apply the rule to the facts
4. Reach a conclusion";
                  p_stream := true;
                  p_temperature :=
                    LegalVision.TEMPERATURE (LegalVision.valves legal);
                  p_images := None |};
             req_stream := true;
             req_timeout := 300 |} in
        flag = false
        /\ run = LegalVision._call_ollama rt
                   (LegalVision.REASONING_MODEL (LegalVision.valves legal))
                   (LegalVision.bare_prompt (fmt rt user_message))
                   None true legal
        /\ posts (trace_of run) = [req]
        /\ exists frags, trace_of run = HttpPost req :: map Yield frags).
Proof.
  split.
  - intros text H run req. subst run req.
    rewrite (alice_pipe_no_images rt user_message model_id _ body alice _ H).
    split; [reflexivity |].
    destruct (alice_stream_out rt (Alice.bare_prompt (fmt rt user_message))
                alice) as (frags & ->).
    unfold trace_of. cbn [snd posts ocr_reads flat_map app].
    fold (ocr_reads (map Yield frags)). fold (posts (map Yield frags)).
    rewrite ocr_reads_of_fragments, posts_of_fragments.
    split; [reflexivity |]. split; [reflexivity |]. now exists frags.
  - intros flag text H run req. subst run req.
    split; [exact (legal_flag _ _ _ _ H) |].
    rewrite (legal_pipe_no_images rt user_message model_id _ body legal _ _ H).
    split; [reflexivity |].
    destruct (legal_stream_out rt
                (LegalVision.REASONING_MODEL (LegalVision.valves legal))
                (LegalVision.bare_prompt (fmt rt user_message)) None legal)
      as (frags & ->).
    unfold trace_of. cbn [snd posts flat_map app].
    fold (posts (map Yield frags)). rewrite posts_of_fragments.
    split; [reflexivity | now exists frags].
Qed.

Lemma no_images_bare_prompt_witness :
  posts (trace_of
           (Alice.pipe (Sample.runtime true Sample.healthy)
              (PStr "What is the rule against perpetuities?") "alice"
              [Sample.text_message "What is the rule against perpetuities?"]
              (PDict []) Alice.__init__))
  = [{| req_url := "http://host.docker.internal:11434/api/generate";
        req_json :=
          {| p_model := "deepseek-r1:8b";
             p_prompt :=
"You are a legal reasoning assistant for Texas bar exam preparation.

Question: What is the rule against perpetuities?

Provide thorough legal analysis:
1. Identify the legal issue(s)
2. State the applicable rule(s) of law  
3. Apply the rule to the facts
4. Reach a conclusion";
             p_stream := true;
             p_temperature := 3 # 10;
             p_images := None |};
        req_stream := true;
        req_timeout := 300 |}]
  /\ LegalVision.pipe (Sample.runtime true Sample.healthy)
       (PStr "What is the rule against perpetuities?") "legal"
       [Sample.text_message "What is the rule against perpetuities?"]
       (PDict []) LegalVision.__init__
     = LegalVision._call_ollama (Sample.runtime true Sample.healthy)
         "deepseek-r1:8b"
         (LegalVision.bare_prompt "What is the rule against perpetuities?")
         None true LegalVision.__init__.
Proof.
  pose proof (no_images_bare_prompt (Sample.runtime true Sample.healthy)
                (PStr "What is the rule against perpetuities?") "alice"
                [Sample.text_message "What is the rule against perpetuities?"]
                (PDict []) Alice.__init__ LegalVision.__init__) as [HA _].
  pose proof (no_images_bare_prompt (Sample.runtime true Sample.healthy)
                (PStr "What is the rule against perpetuities?") "legal"
                [Sample.text_message "What is the rule against perpetuities?"]
                (PDict []) Alice.__init__ LegalVision.__init__) as [_ HL].
  split.
  - exact (proj1 (proj2 (HA _ eq_refl))).
  - exact (proj1 (proj2 (HL _ _ eq_refl))).
Defined.

(** C7, as amended. The OCR strategy takes the images one after the other in
    the order of the list and never fails the batch. When Tesseract is not
    installed it reads no image and the output for every image is the fixed
    string [Error: pytesseract not installed]; when it is, the output for an
    image is its recognized text, stripped of the white space at its two
    ends, or [Error reading image: <message>]. In [pipe] the fragment that
    follows the header holds these outputs joined with a blank line, in that
    order. *)
Theorem ocr_stage_in_order (rt : Runtime) (user_message : PyVal)
    (model_id : string) (messages : list PyVal) (body : PyVal)
    (self : Alice.Pipeline) (images : list bytes) (text : string) :
  Alice._extract_images rt messages = Ok (images, text) ->
  images <> [] ->
  Alice.ocr_loop rt images [] self
  = (Ok (map (ocr_output rt) images), self, ocr_events rt images)
  /\ (forall image,
        ocr_output rt image
        = if TESSERACT_AVAILABLE rt then recognized_or_error rt image
          else "Error: pytesseract not installed")
  /\ (forall image,
        recognized_or_error rt image
        = match ocr_read rt image with
          | Ok read => strip read
          | Raise e => "Error reading image: " ++ exn_msg e
          end)
  /\ ocr_reads (ocr_events rt images)
     = (if TESSERACT_AVAILABLE rt then images else [])
  /\ exists rest,
       trace_of (Alice.pipe rt user_message model_id messages body self)
       = (Yield (PStr "👁️ *Alice Paralegal reading image with Tesseract OCR...*

")
          :: ocr_events rt images
          ++ Yield
               (PStr
                  ("**Extracted Text:**
```
"
                   ++ String.concat "

" (map (ocr_output rt) images)
                   ++ "
```

---

"))
             :: rest)%list.
Proof.
  intros H Hne. split; [| split; [| split; [| split]]].
  - now rewrite ocr_loop_out.
  - reflexivity.
  - reflexivity.
  - unfold ocr_events. destruct (TESSERACT_AVAILABLE rt); [| reflexivity].
    clear. induction images as [| image images IH]; simpl; [reflexivity |].
    fold (ocr_reads (map OcrRead images)). now rewrite IH.
  - destruct (alice_pipe_images rt user_message model_id _ body self _ _ H Hne)
      as (frags & ->).
    unfold trace_of. cbn [snd]. eexists. reflexivity.
Qed.

Lemma ocr_stage_in_order_witness :
  Alice.ocr_loop (Sample.runtime true Sample.healthy)
    [[x89; x68; x69]; [x68; x69]; [x89; x20; x6f; x6b; x0a];
     [x89; xc2; xa0; x41; x6e; x73; x77; x65; x72; x3a; x20; x42; xe2; x80; x83; x0a]]
    [] Alice.__init__
  = (Ok ["hi"; "Error reading image: cannot identify image file"; "ok";
         "Answer: B"],
     Alice.__init__,
     [OcrRead [x89; x68; x69]; OcrRead [x68; x69];
      OcrRead [x89; x20; x6f; x6b; x0a];
      OcrRead [x89; xc2; xa0; x41; x6e; x73; x77; x65; x72; x3a; x20; x42; xe2; x80; x83; x0a]]).
Proof.
  exact (proj1 (ocr_stage_in_order (Sample.runtime true Sample.healthy)
                  (PStr "pick the best answer") "alice"
                  [Sample.parts_message
                     [Sample.image_part "data:image/png;base64,iWhp";
                      Sample.image_part "data:image/png;base64,aGk=";
                      Sample.image_part "data:image/png;base64,iSBvawo=";
                      Sample.image_part "data:image/png;base64,icKgQW5zd2VyOiBC4oCDCg=="]]
                  (PDict []) Alice.__init__
                  [[x89; x68; x69]; [x68; x69]; [x89; x20; x6f; x6b; x0a];
                   [x89; xc2; xa0; x41; x6e; x73; x77; x65; x72; x3a; x20; x42; xe2; x80; x83; x0a]]
                  EmptyString eq_refl ltac:(discriminate))).
Defined.

(** C7, as stated, fails when Tesseract is not installed: the image that
    would be read as [hi] gives the fixed string, which is neither its text
    nor an [Error reading image: ...] string, and it is not read at all. *)
Lemma ocr_without_tesseract_counterexample :
  Alice.ocr_loop (Sample.runtime false Sample.healthy) [[x89; x68; x69]] []
    Alice.__init__
  = (Ok ["Error: pytesseract not installed"], Alice.__init__, [])
  /\ recognized_or_error (Sample.runtime false Sample.healthy) [x89; x68; x69]
     = "hi"
  /\ startswith "Error reading image: " "Error: pytesseract not installed"
     = false.
Proof. repeat split; reflexivity. Qed.

Lemma skipn_nth_error {A} (xs : list A) (i : nat) (x : A) :
  nth_error xs i = Some x -> skipn i xs = x :: skipn (S i) xs.
Proof.
  revert i; induction xs as [| y xs IH]; intros [| i]; simpl; try discriminate.
  - now intros [= ->].
  - apply IH.
Qed.

Lemma ocr_events_nil (rt : Runtime) : ocr_events rt [] = [].
Proof. unfold ocr_events. now destruct (TESSERACT_AVAILABLE rt). Qed.

(** The iteration of the OCR loop on the objects it can reach: with fuel
    for every item left it ends at the end of the list, has read the items
    from [i] on in order, has added their outputs to its own list, and has
    left the pipeline and the list of the caller as they were. *)
Lemma ocr_iterate_out (rt : Runtime) (fuel : nat) :
  forall (i : nat) (s : Stage1.alice_objects),
    (List.length (Stage1.a_images s) - i < fuel)%nat ->
    Stage1.ocr_iterate rt fuel i s
    = (Ok true,
       {| Stage1.a_self := Stage1.a_self s;
          Stage1.a_images := Stage1.a_images s;
          Stage1.a_all_text :=
            (Stage1.a_all_text s
             ++ map (ocr_output rt) (skipn i (Stage1.a_images s)))%list |},
       ocr_events rt (skipn i (Stage1.a_images s))).
Proof.
  induction fuel as [| fuel IH]; intros i s Hfuel; [lia |].
  cbn [Stage1.ocr_iterate]. unfold bind at 1, get.
  destruct (nth_error (Stage1.a_images s) i) as [image |] eqn:E.
  - unfold bind at 1, Stage1.on_alice_self. rewrite ocr_image_out.
    unfold bind at 1, get. unfold bind at 1, Stage1.set_all_text.
    cbn [Stage1.a_self Stage1.a_images Stage1.a_all_text].
    rewrite IH; cbn [Stage1.a_self Stage1.a_images Stage1.a_all_text].
    + rewrite (skipn_nth_error _ _ _ E). cbn [map].
      rewrite (ocr_events_cons rt image (skipn (S i) (Stage1.a_images s))).
      unfold append_item.
      rewrite <- !app_assoc. reflexivity.
    + assert (i < List.length (Stage1.a_images s))%nat
        by (apply nth_error_Some; congruence).
      lia.
  - apply nth_error_None in E.
    rewrite skipn_all2 by exact E. cbn [map]. rewrite ocr_events_nil.
    unfold ret. destruct s as [self images own].
    cbn [Stage1.a_self Stage1.a_images Stage1.a_all_text].
    now rewrite !app_nil_r.
Qed.

(** Lines 133-138 of alice on the objects they can reach. *)
Lemma ocr_stage_out (rt : Runtime) (fuel : nat) (s : Stage1.alice_objects) :
  (List.length (Stage1.a_images s) < fuel)%nat ->
  Stage1.ocr_stage rt fuel s
  = (Ok (Some (String.concat (nl ++ nl)
                 (map (ocr_output rt) (Stage1.a_images s)))),
     {| Stage1.a_self := Stage1.a_self s;
        Stage1.a_images := Stage1.a_images s;
        Stage1.a_all_text := map (ocr_output rt) (Stage1.a_images s) |},
     ocr_events rt (Stage1.a_images s)).
Proof.
  intro Hfuel. unfold Stage1.ocr_stage, bind at 1, Stage1.set_all_text.
  unfold bind at 1.
  rewrite ocr_iterate_out
    by (cbn [Stage1.a_self Stage1.a_images Stage1.a_all_text]; lia).
  cbn [Stage1.a_self Stage1.a_images Stage1.a_all_text skipn app].
  unfold bind, get, ret.
  cbn [Stage1.a_self Stage1.a_images Stage1.a_all_text app].
  now rewrite app_nil_r.
Qed.

(** [_call_ollama_sync] on the objects it can reach: it writes its own
    [payload], sends the request the plain embedding sends and returns what
    it returns, and leaves the pipeline and the list of the caller as they
    were. *)
Lemma shared_sync_out (rt : Runtime) (model prompt : string)
    (s : Stage1.legal_objects) :
  Stage1._call_ollama_sync rt model prompt s
  = (Ok (sync_answer rt
           (LegalVision.make_request
              (LegalVision.valves (Stage1.l_self s)) model prompt
              (Stage1.l_images s) false false) model),
     {| Stage1.l_self := Stage1.l_self s;
        Stage1.l_images := Stage1.l_images s;
        Stage1.l_payload :=
          {| Stage1.o_model := model;
             Stage1.o_prompt := prompt;
             Stage1.o_stream := false;
             Stage1.o_temperature :=
               LegalVision.TEMPERATURE (LegalVision.valves (Stage1.l_self s));
             Stage1.o_images := Stage1.images_truthy (Stage1.l_images s) |} |},
     [HttpPost
        (LegalVision.make_request (LegalVision.valves (Stage1.l_self s))
           model prompt (Stage1.l_images s) false false)]).
Proof.
  destruct s as [self images payload].
  unfold Stage1._call_ollama_sync, sync_answer, try_exceptM, bind, get, emit,
    lift, ret, Stage1.set_payload, Stage1.request_of_payload,
    LegalVision.make_request.
  cbn [Stage1.l_self Stage1.l_images Stage1.l_payload].
  destruct images as [[| name names] |];
    cbn [Stage1.images_truthy Stage1.l_self Stage1.l_images Stage1.l_payload
         Stage1.o_model Stage1.o_prompt Stage1.o_stream Stage1.o_temperature
         Stage1.o_images app];
    (destruct (requests_post rt _) as [r | e]; cbn [app]; [| reflexivity];
     destruct (raise_for_status r) as [[] | e]; cbn [app]; [| reflexivity];
     destruct (resp_json r) as [data | e]; cbn [app]; [| reflexivity];
     destruct data; reflexivity).
Qed.

(** C8, as amended. On an empty list the OCR loop does nothing and gives no
    text, so that the combined output is the empty string. The call of the
    vision model on an empty list still sends one request, whose payload has
    no [images] key, and returns the [response] field of what the backend
    answers, or the error text. Neither strategy changes any state its
    caller can see, whatever the list: run on the objects they can reach,
    they write to their own only (the list [all_text], the dict [payload])
    and leave the pipeline and the list [images] of the caller as they
    were, while doing what the plain embedding does. *)
Theorem empty_image_list_stage1 (rt : Runtime) (alice : Alice.Pipeline)
    (legal : LegalVision.Pipeline) (model prompt : string)
    (images : list bytes) (names : option (list string))
    (own_text : list string) (own_payload : Stage1.payload_object)
    (fuel : nat) :
  (List.length images < fuel)%nat ->
  let empty_request :=
    {| req_url :=
         LegalVision.OLLAMA_HOST (LegalVision.valves legal) ++ "/api/generate";
       req_json :=
         {| p_model := model;
            p_prompt := prompt;
            p_stream := false;
            p_temperature := LegalVision.TEMPERATURE (LegalVision.valves legal);
            p_images := None |};
       req_stream := false;
       req_timeout := 300 |} in
  (* the empty list *)
  Alice.ocr_loop rt [] [] alice = (Ok [], alice, [])
  /\ String.concat (nl ++ nl) [] = EmptyString
  /\ Stage1.ocr_stage rt fuel
       {| Stage1.a_self := alice; Stage1.a_images := [];
          Stage1.a_all_text := own_text |}
     = (Ok (Some EmptyString),
        {| Stage1.a_self := alice; Stage1.a_images := [];
           Stage1.a_all_text := [] |},
        [])
  /\ LegalVision._call_ollama_sync rt model prompt (Some []) legal
     = (Ok (sync_answer rt empty_request model), legal,
        [HttpPost empty_request])
  /\ Stage1._call_ollama_sync rt model prompt
       {| Stage1.l_self := legal; Stage1.l_images := Some [];
          Stage1.l_payload := own_payload |}
     = (Ok (sync_answer rt empty_request model),
        {| Stage1.l_self := legal; Stage1.l_images := Some [];
           Stage1.l_payload :=
             {| Stage1.o_model := model;
                Stage1.o_prompt := prompt;
                Stage1.o_stream := false;
                Stage1.o_temperature :=
                  LegalVision.TEMPERATURE (LegalVision.valves legal);
                Stage1.o_images := false |} |},
        [HttpPost empty_request])
  (* any list: the objects of the caller *)
  /\ (exists written,
        state_of
          (Stage1.ocr_stage rt fuel
             {| Stage1.a_self := alice; Stage1.a_images := images;
                Stage1.a_all_text := own_text |})
        = {| Stage1.a_self := alice; Stage1.a_images := images;
             Stage1.a_all_text := written |})
  /\ (exists written,
        state_of
          (Stage1._call_ollama_sync rt model prompt
             {| Stage1.l_self := legal; Stage1.l_images := names;
                Stage1.l_payload := own_payload |})
        = {| Stage1.l_self := legal; Stage1.l_images := names;
             Stage1.l_payload := written |})
  (* any list: the same run as the plain embedding *)
  /\ result_of
       (Stage1.ocr_stage rt fuel
          {| Stage1.a_self := alice; Stage1.a_images := images;
             Stage1.a_all_text := own_text |})
     = Ok (Some (String.concat (nl ++ nl) (map (ocr_output rt) images)))
  /\ trace_of
       (Stage1.ocr_stage rt fuel
          {| Stage1.a_self := alice; Stage1.a_images := images;
             Stage1.a_all_text := own_text |})
     = trace_of (Alice.ocr_loop rt images [] alice)
  /\ result_of
       (Stage1._call_ollama_sync rt model prompt
          {| Stage1.l_self := legal; Stage1.l_images := names;
             Stage1.l_payload := own_payload |})
     = result_of (LegalVision._call_ollama_sync rt model prompt names legal)
  /\ trace_of
       (Stage1._call_ollama_sync rt model prompt
          {| Stage1.l_self := legal; Stage1.l_images := names;
             Stage1.l_payload := own_payload |})
     = trace_of (LegalVision._call_ollama_sync rt model prompt names legal).
Proof.
  intros Hfuel empty_request. subst empty_request.
  split; [reflexivity |]. split; [reflexivity |].
  split.
  { rewrite ocr_stage_out by (cbn [Stage1.a_images List.length]; lia).
    cbn [Stage1.a_self Stage1.a_images map]. rewrite ocr_events_nil.
    reflexivity. }
  split; [exact (legal_sync_exact rt model prompt (Some []) legal) |].
  split; [exact (shared_sync_out rt model prompt _) |].
  rewrite ocr_stage_out by (cbn [Stage1.a_images]; exact Hfuel).
  rewrite shared_sync_out, legal_sync_exact, ocr_loop_out.
  cbn [Stage1.a_self Stage1.a_images Stage1.l_self Stage1.l_images].
  unfold state_of, result_of, trace_of. cbn [fst snd].
  split; [eexists; reflexivity |]. split; [eexists; reflexivity |].
  repeat split.
Qed.

Lemma empty_image_list_stage1_witness :
  Stage1.ocr_stage (Sample.runtime true Sample.healthy) 3
    {| Stage1.a_self := Alice.__init__;
       Stage1.a_images := [[x89; x68; x69]; [x68; x69]];
       Stage1.a_all_text := ["left over"] |}
  = (Ok (Some ("hi" ++ nl ++ nl
               ++ "Error reading image: cannot identify image file")),
     {| Stage1.a_self := Alice.__init__;
        Stage1.a_images := [[x89; x68; x69]; [x68; x69]];
        Stage1.a_all_text :=
          ["hi"; "Error reading image: cannot identify image file"] |},
     [OcrRead [x89; x68; x69]; OcrRead [x68; x69]])
  /\ Stage1.ocr_stage (Sample.runtime true Sample.healthy) 3
       {| Stage1.a_self := Alice.__init__; Stage1.a_images := [];
          Stage1.a_all_text := ["left over"] |}
     = (Ok (Some EmptyString),
        {| Stage1.a_self := Alice.__init__; Stage1.a_images := [];
           Stage1.a_all_text := [] |},
        []).
Proof.
  split; [reflexivity |].
  exact (proj1 (proj2 (proj2
           (empty_image_list_stage1 (Sample.runtime true Sample.healthy)
              Alice.__init__ LegalVision.__init__ "llava:13b" "Describe"
              [[x89; x68; x69]; [x68; x69]] (Some [])
              ["left over"]
              (Stage1.MkPayloadObject EmptyString EmptyString true 0 true)
              3 ltac:(simpl; lia))))).
Defined.

(** C8, as stated, fails for the vision-model strategy: on an empty list the
    call sends a request all the same and returns the answer of the
    backend, which is not empty. *)
Lemma sync_call_on_empty_list_counterexample :
  LegalVision._call_ollama_sync (Sample.runtime true Sample.healthy)
    "llava:13b" "Describe this image in detail." (Some [])
    LegalVision.__init__
  = (Ok (PStr "A contract question."), LegalVision.__init__,
     [HttpPost
        {| req_url := "http://host.docker.internal:11434/api/generate";
           req_json := {| p_model := "llava:13b";
                          p_prompt := "Describe this image in detail.";
                          p_stream := false;
                          p_temperature := 3 # 10;
                          p_images := None |};
           req_stream := false;
           req_timeout := 300 |}]).
Proof. reflexivity. Qed.

(** C9. In the image branch, a user message that is falsy (the empty
    string, [None], ...) is replaced in the reasoning prompt by the fixed
    question of the pipeline, [What is the correct answer?] in alice and
    [Analyze this and provide legal reasoning.] in legal_vision: the test is
    on the truth value, so a message that is there and empty is replaced
    too. *)
Theorem falsy_user_message_fallback (rt : Runtime) (user_message : PyVal)
    (model_id : string) (messages : list PyVal) (body : PyVal)
    (alice : Alice.Pipeline) (legal : LegalVision.Pipeline) :
  truthy user_message = false ->
  (forall images text,
     Alice._extract_images rt messages = Ok (images, text) ->
     images <> [] ->
     posts (trace_of (Alice.pipe rt user_message model_id messages body alice))
     = [
         {| req_url := Alice.OLLAMA_HOST (Alice.valves alice) ++ "/api/generate";
            req_json :=
              {| p_model := Alice.REASONING_MODEL (Alice.valves alice);
                 p_prompt :=
                   "You are a legal reasoning assistant for Texas bar exam preparation.

Here is the question extracted from the image:
"
                   ++ String.concat "

" (map (ocr_output rt) images)
                   ++ "

User asks: What is the correct answer?

Provide thorough legal analysis:
1. Identify the legal issue(s) being tested
2. State the applicable rule(s) of law
3. Apply the rule to these specific facts
4. Analyze each answer choice - explain why it is correct or incorrect
5. State the best answer with confidence";
                 p_stream := true;
                 p_temperature := Alice.TEMPERATURE (Alice.valves alice);
                 p_images := None |};
            req_stream := true;
            req_timeout := 300 |}])
  /\ (forall flag images text,
        LegalVision._has_images messages = Ok (flag, images, text) ->
        images <> [] ->
        let vision :=
          {| req_url :=
               LegalVision.OLLAMA_HOST (LegalVision.valves legal)
               ++ "/api/generate";
             req_json :=
               {| p_model := LegalVision.VISION_MODEL (LegalVision.valves legal);
                  p_prompt :=
                    "Describe this image in detail. If it contains text (like a legal question, 
exam problem, or document), transcribe ALL the text exactly as written. Include any multiple choice 
options if present.

User's question: "
                    ++ text;
                  p_stream := false;
                  p_temperature :=
                    LegalVision.TEMPERATURE (LegalVision.valves legal);
                  p_images := Some images |};
             req_stream := false;
             req_timeout := 300 |} in
        posts (trace_of
                 (LegalVision.pipe rt user_message model_id messages body legal))
        = [vision;
           {| req_url :=
                LegalVision.OLLAMA_HOST (LegalVision.valves legal)
                ++ "/api/generate";
              req_json :=
                {| p_model := LegalVision.REASONING_MODEL (LegalVision.valves legal);
                   p_prompt :=
                     "You are a legal reasoning assistant helping with Texas bar exam preparation.

Based on this image content:
"
                     ++ fmt rt
                          (sync_answer rt vision
                             (LegalVision.VISION_MODEL (LegalVision.valves legal)))
                     ++ "

User's question: Analyze this and provide legal reasoning.

Provide thorough legal analysis. If this is a multiple choice question:
1. Identify the legal issue(s)
2. State the applicable rule(s) of law
3. Apply the rule to the facts
4. Explain why each answer choice is correct or incorrect
5. State the best answer with confidence";
                   p_stream := true;
                   p_temperature :=
                     LegalVision.TEMPERATURE (LegalVision.valves legal);
                   p_images := None |};
              req_stream := true;
              req_timeout := 300 |}]).
Proof.
  intro Hfalsy. split.
  - intros images text H Hne.
    destruct (alice_pipe_images rt user_message model_id _ body alice _ _ H Hne)
      as (frags & ->).
    rewrite Hfalsy. unfold trace_of. cbn [snd fmt].
    change (Yield (PStr Alice.reading_header) :: ?l)
      with ([Yield (PStr Alice.reading_header)] ++ l)%list.
    rewrite !posts_app, posts_of_ocr_events, posts_of_fragments.
    reflexivity.
  - intros flag images text H Hne vision. subst vision.
    destruct (legal_pipe_images_exact rt user_message model_id _ body legal
                _ _ _ _ H Hne (legal_sync_exact rt _ _ _ legal))
      as (frags & ->).
    destruct images as [| image images]; [congruence |].
    rewrite Hfalsy. unfold trace_of. cbn [snd fmt].
    rewrite posts_app, posts_of_fragments. reflexivity.
Qed.

Lemma falsy_user_message_fallback_witness :
  posts (trace_of
           (Alice.pipe (Sample.runtime true Sample.healthy) (PStr EmptyString)
              "alice"
              [Sample.parts_message
                 [Sample.image_part "data:image/png;base64,iWhp"]]
              (PDict []) Alice.__init__))
  = [{| req_url := "http://host.docker.internal:11434/api/generate";
        req_json :=
          {| p_model := "deepseek-r1:8b";
             p_prompt :=
"You are a legal reasoning assistant for Texas bar exam preparation.

Here is the question extracted from the image:
hi

User asks: What is the correct answer?

Provide thorough legal analysis:
1. Identify the legal issue(s) being tested
2. State the applicable rule(s) of law
3. Apply the rule to these specific facts
4. Analyze each answer choice - explain why it is correct or incorrect
5. State the best answer with confidence";
             p_stream := true;
             p_temperature := 3 # 10;
             p_images := None |};
        req_stream := true;
        req_timeout := 300 |}].
Proof.
  exact (proj1 (falsy_user_message_fallback
                  (Sample.runtime true Sample.healthy) (PStr EmptyString)
                  "alice"
                  [Sample.parts_message
                     [Sample.image_part "data:image/png;base64,iWhp"]]
                  (PDict []) Alice.__init__ LegalVision.__init__ eq_refl)
           [[x89; x68; x69]] EmptyString eq_refl ltac:(discriminate)).
Defined.

(** C10. When the request of a non-streaming call goes through and the body
    is a JSON object without a [response] field, [_call_ollama_sync]
    returns the empty string and [_call_ollama] with [stream=False] yields
    it: no error string, no exception. *)
Theorem missing_response_field_empty_string (rt : Runtime)
    (model prompt : string) (images : option (list string))
    (self : LegalVision.Pipeline) (r : response)
    (entries : list (string * PyVal)) :
  requests_post rt
    (LegalVision.make_request (LegalVision.valves self) model prompt images
       false false) = Ok r ->
  raise_for_status r = Ok tt ->
  resp_json r = Ok (PDict entries) ->
  dict_lookup "response" entries = None ->
  LegalVision._call_ollama_sync rt model prompt images self
  = (Ok (PStr EmptyString), self,
     [HttpPost (LegalVision.make_request (LegalVision.valves self) model
                  prompt images false false)])
  /\ LegalVision._call_ollama rt model prompt images false self
     = (Ok tt, self,
        [HttpPost (LegalVision.make_request (LegalVision.valves self) model
                     prompt images false false);
         Yield (PStr EmptyString)]).
Proof.
  intros Hpost Hstatus Hjson Hfield.
  unfold LegalVision._call_ollama_sync, LegalVision._call_ollama,
    try_exceptM, bind, get, emit, lift, ret, yield.
  rewrite Hpost, Hstatus, Hjson. unfold py_get. rewrite Hfield.
  split; reflexivity.
Qed.

Lemma missing_response_field_empty_string_witness :
  LegalVision._call_ollama_sync (Sample.runtime true Sample.no_response_field)
    "llava:13b" "Describe this image in detail." (Some ["iWhp"])
    LegalVision.__init__
  = (Ok (PStr EmptyString), LegalVision.__init__,
     [HttpPost (LegalVision.make_request LegalVision.default_valves
                  "llava:13b" "Describe this image in detail."
                  (Some ["iWhp"]) false false)])
  /\ LegalVision._call_ollama (Sample.runtime true Sample.no_response_field)
       "llava:13b" "Describe this image in detail." (Some ["iWhp"]) false
       LegalVision.__init__
     = (Ok tt, LegalVision.__init__,
        [HttpPost (LegalVision.make_request LegalVision.default_valves
                     "llava:13b" "Describe this image in detail."
                     (Some ["iWhp"]) false false);
         Yield (PStr EmptyString)]).
Proof.
  apply (missing_response_field_empty_string
           (Sample.runtime true Sample.no_response_field)
           "llava:13b" "Describe this image in detail." (Some ["iWhp"])
           LegalVision.__init__
           (Sample.ok_response [] (Ok (PDict [("done", PBool true)])))
           [("done", PBool true)]); reflexivity.
Defined.

(* ------------------------------------------------------------------ *)
(** ** The pipelines on whole conversations *)

(** A question without image: the bare-question prompt goes to the
    reasoning model and the fragments it streams come back in order; the
    empty line and the closing line of the stream give nothing. *)
Example alice_text_question :
  Alice.pipe (Sample.runtime true Sample.healthy)
    (PStr "What is the rule against perpetuities?") "alice"
    [PDict [("content", PStr "What is the rule against perpetuities?")]]
    (PDict []) Alice.__init__
  = (Ok tt, Alice.__init__,
     [HttpPost
        (Alice.stream_request Alice.default_valves
           (Alice.bare_prompt "What is the rule against perpetuities?"));
      Yield (PStr "Hi"); Yield (PStr " there")]).
Proof. reflexivity. Qed.

(** One PNG and a question: header, text read from the image, second header,
    then the fragments of the reasoning model. *)
Example alice_image_question :
  yields (trace_of
            (Alice.pipe (Sample.runtime true Sample.healthy)
               (PStr "pick the best answer") "alice"
               [Sample.parts_message
                  [Sample.text_part "pick the best answer";
                   Sample.image_part "data:image/png;base64,iWhp"]]
               (PDict []) Alice.__init__))
  = [PStr Alice.reading_header;
     PStr (Alice.extracted_fragment "hi");
     PStr Alice.analyzing_header;
     PStr "Hi"; PStr " there"].
Proof. reflexivity. Qed.

Example legal_image_question :
  yields (trace_of
            (LegalVision.pipe (Sample.runtime true Sample.healthy)
               (PStr "pick the best answer") "legal"
               [Sample.parts_message
                  [Sample.text_part "pick the best answer";
                   Sample.image_part "data:image/png;base64,iWhp"]]
               (PDict []) LegalVision.__init__))
  = [PStr LegalVision.analyzing_header;
     PStr (LegalVision.analysis_fragment "A contract question.");
     PStr LegalVision.processing_header;
     PStr "Hi"; PStr " there"].
Proof. reflexivity. Qed.

(** Nobody listens at the host: both stages of legal_vision turn into text. *)
Example legal_backend_unreachable :
  yields (trace_of
            (LegalVision.pipe (Sample.runtime true Sample.unreachable)
               (PStr "pick the best answer") "legal"
               [Sample.parts_message
                  [Sample.image_part "data:image/png;base64,iWhp"]]
               (PDict []) LegalVision.__init__))
  = [PStr LegalVision.analyzing_header;
     PStr (LegalVision.analysis_fragment
             "Error calling llava:13b: Connection refused");
     PStr LegalVision.processing_header;
     PStr "Error calling deepseek-r1:8b: Connection refused"].
Proof. reflexivity. Qed.

(** A line that is JSON but not an object ends the stream with an error: the
    membership test raises [TypeError], which only the outer [except]
    takes. *)
Example number_line_ends_stream :
  yields (trace_of
            (Alice._call_ollama_stream
               (Sample.runtime true
                  (fun _ => Ok (Sample.ok_response
                                  [Sample.response_line "Hi"; "not json"; "7";
                                   Sample.response_line " there"]
                                  (Ok PNone))))
               "Q" Alice.__init__))
  = [PStr "Hi";
     PStr "Error calling deepseek-r1:8b: argument of type 'int' is not iterable"].
Proof. reflexivity. Qed.

(* ------------------------------------------------------------------ *)
(** ** More on the extractors *)

Ltac finish_collect :=
  unfold append_item; rewrite ?app_nil_r, ?map_app; reflexivity.

Lemma eq_str_text_not_image (v : PyVal) :
  eq_str v "text" = true -> eq_str v "image_url" = false.
Proof.
  destruct v; simpl; try discriminate.
  intro H. apply String.eqb_eq in H. now subst.
Qed.

(** A loop whose steps only add to the two lists adds what the steps add. *)
Lemma for_each_collect {A I}
    (body : list I * list PyVal -> A -> result (list I * list PyVal))
    (images_of : A -> list I) (texts_of : A -> list string) (shape : A -> bool) :
  (forall images texts x,
     shape x = true ->
     body (images, map PStr texts) x
     = Ok ((images ++ images_of x)%list, map PStr (texts ++ texts_of x)%list)) ->
  forall xs images texts,
    forallb shape xs = true ->
    for_each body xs (images, map PStr texts)
    = Ok ((images ++ flat_map images_of xs)%list,
          map PStr (texts ++ flat_map texts_of xs)%list).
Proof.
  intros Hbody xs; induction xs as [| x xs IH]; intros images texts Hs; simpl.
  - now rewrite !app_nil_r.
  - simpl in Hs. apply andb_true_iff in Hs as [Hx Hxs].
    rewrite (Hbody _ _ _ Hx). simpl. rewrite (IH _ _ Hxs).
    now rewrite <- !app_assoc.
Qed.

Lemma alice_item_collect (rt : Runtime) (images : list bytes)
    (texts : list string) (item : PyVal) :
  part_shape_ok item = true ->
  Alice.extract_item rt (images, map PStr texts) item
  = Ok ((images ++ alice_part_images rt item)%list,
        map PStr (texts ++ part_texts item)%list).
Proof.
  destruct item as [| | | | s | | entries]; simpl; intro Hs;
    try finish_collect.
  unfold alice_part_images, image_part_url.
  fold (lookup_or "type" entries PNone) in *.
  destruct (eq_str (lookup_or "type" entries PNone) "text") eqn:Et.
  { rewrite (eq_str_text_not_image _ Et). simpl.
    fold (lookup_or "text" entries (PStr EmptyString)).
    destruct (lookup_or "text" entries (PStr EmptyString)); try discriminate.
    finish_collect. }
  destruct (eq_str (lookup_or "type" entries PNone) "image_url");
    [| simpl; finish_collect].
  fold (lookup_or "image_url" entries (PDict [])).
  destruct (lookup_or "image_url" entries (PDict [])) as [| | | | | | inner];
    try discriminate.
  simpl. fold (lookup_or "url" inner (PStr EmptyString)).
  destruct (lookup_or "url" inner (PStr EmptyString)) as [| | | | u | |];
    try discriminate.
  simpl. destruct (startswith "data:image" u); [| finish_collect].
  rewrite alice_data_uri.
  destruct (after_first comma u) as [payload |]; [| finish_collect].
  destruct (b64decode rt payload); finish_collect.
Qed.

Lemma legal_item_collect (images : list string) (texts : list string)
    (item : PyVal) :
  part_shape_ok item = true ->
  LegalVision.extract_item (images, map PStr texts) item
  = Ok ((images ++ legal_part_images item)%list,
        map PStr (texts ++ part_texts item)%list).
Proof.
  destruct item as [| | | | s | | entries]; simpl; intro Hs;
    try finish_collect.
  unfold legal_part_images, image_part_url.
  fold (lookup_or "type" entries PNone) in *.
  destruct (eq_str (lookup_or "type" entries PNone) "text") eqn:Et.
  { rewrite (eq_str_text_not_image _ Et). simpl.
    fold (lookup_or "text" entries (PStr EmptyString)).
    destruct (lookup_or "text" entries (PStr EmptyString)); try discriminate.
    finish_collect. }
  destruct (eq_str (lookup_or "type" entries PNone) "image_url");
    [| simpl; finish_collect].
  fold (lookup_or "image_url" entries (PDict [])).
  destruct (lookup_or "image_url" entries (PDict [])) as [| | | | | | inner];
    try discriminate.
  simpl. fold (lookup_or "url" inner (PStr EmptyString)).
  destruct (lookup_or "url" inner (PStr EmptyString)) as [| | | | u | |];
    try discriminate.
  simpl. destruct (startswith "data:image" u); [| finish_collect].
  rewrite legal_data_uri.
  destruct (after_first comma u) as [payload |]; finish_collect.
Qed.

Lemma alice_message_collect (rt : Runtime) (images : list bytes)
    (texts : list string) (msg : PyVal) :
  message_shape_ok msg = true ->
  Alice.extract_message rt (images, map PStr texts) msg
  = Ok ((images ++ alice_message_images rt msg)%list,
        map PStr (texts ++ message_texts msg)%list).
Proof.
  unfold message_shape_ok, Alice.extract_message, alice_message_images,
    message_texts, content_of.
  destruct msg as [| | | | | | entries]; try discriminate.
  rewrite py_get_dict. cbn [rbind].
  destruct (lookup_or "content" entries (PStr EmptyString))
    as [| | | | s | items |]; intro Hs; simpl; try finish_collect.
  apply (for_each_collect _ _ _ _ (alice_item_collect rt)). exact Hs.
Qed.

Lemma legal_message_collect (images : list string) (texts : list string)
    (msg : PyVal) :
  message_shape_ok msg = true ->
  LegalVision.extract_message (images, map PStr texts) msg
  = Ok ((images ++ legal_message_images msg)%list,
        map PStr (texts ++ message_texts msg)%list).
Proof.
  unfold message_shape_ok, LegalVision.extract_message, legal_message_images,
    message_texts, content_of.
  destruct msg as [| | | | | | entries]; try discriminate.
  rewrite py_get_dict. cbn [rbind].
  destruct (lookup_or "content" entries (PStr EmptyString))
    as [| | | | s | items |]; intro Hs; simpl; try finish_collect.
  apply (for_each_collect _ _ _ _ legal_item_collect). exact Hs.
Qed.

Lemma alice_extract_collect (rt : Runtime) (messages : list PyVal) :
  well_shaped messages = true ->
  Alice._extract_images rt messages
  = Ok (flat_map (alice_message_images rt) messages,
        String.concat " " (flat_map message_texts messages)).
Proof.
  intro Hs. unfold Alice._extract_images.
  pose proof (for_each_collect _ _ _ _ (alice_message_collect rt) messages
                [] [] Hs) as L.
  simpl in L. rewrite L. simpl. unfold py_join. now rewrite strs_of_strings.
Qed.

Lemma legal_extract_collect (messages : list PyVal) :
  well_shaped messages = true ->
  LegalVision._has_images messages
  = Ok (nonempty (flat_map legal_message_images messages),
        flat_map legal_message_images messages,
        String.concat " " (flat_map message_texts messages)).
Proof.
  intro Hs. unfold LegalVision._has_images.
  pose proof (for_each_collect _ _ _ _ legal_message_collect messages
                [] [] Hs) as L.
  simpl in L. rewrite L. simpl. unfold py_join. rewrite strs_of_strings.
  simpl. now destruct (flat_map legal_message_images messages).
Qed.

(** X1. On a list of messages they can go through, the extractors return
    the images of the [data:image] parts in the order of the document (the
    decoded payloads in alice, the payload texts in legal_vision) and the
    texts of the string contents, string parts and [text] parts in the order
    of the document, joined with single spaces; parts of any other kind give
    nothing. *)
Theorem extractors_collect_in_document_order (rt : Runtime)
    (messages : list PyVal) :
  well_shaped messages = true ->
  Alice._extract_images rt messages
  = Ok (flat_map (alice_message_images rt) messages,
        String.concat " " (flat_map message_texts messages))
  /\ LegalVision._has_images messages
     = Ok (nonempty (flat_map legal_message_images messages),
           flat_map legal_message_images messages,
           String.concat " " (flat_map message_texts messages)).
Proof.
  intro Hs. split.
  - now apply alice_extract_collect.
  - now apply legal_extract_collect.
Qed.

Lemma extractors_collect_in_document_order_witness :
  Alice._extract_images (Sample.runtime true Sample.healthy)
    [PDict [("role", PStr "system"); ("content", PStr "Be brief.")];
     Sample.parts_message
       [Sample.text_part "See";
        Sample.image_part "data:image/png;base64,iWhp";
        PDict [("type", PStr "audio")];
        PStr "and";
        Sample.image_part "https://example.org/b.png";
        Sample.image_part "data:image/png;base64,aGk=";
        PInt 3];
     PDict [("role", PStr "user"); ("content", PNone)];
     Sample.text_message "answer"]
  = Ok ([[x89; x68; x69]; [x68; x69]], "Be brief. See and answer").
Proof.
  exact (proj1 (extractors_collect_in_document_order
                  (Sample.runtime true Sample.healthy)
                  [PDict [("role", PStr "system"); ("content", PStr "Be brief.")];
                   Sample.parts_message
                     [Sample.text_part "See";
                      Sample.image_part "data:image/png;base64,iWhp";
                      PDict [("type", PStr "audio")];
                      PStr "and";
                      Sample.image_part "https://example.org/b.png";
                      Sample.image_part "data:image/png;base64,aGk=";
                      PInt 3];
                   PDict [("role", PStr "user"); ("content", PNone)];
                   Sample.text_message "answer"]
                  eq_refl)).
Defined.

Lemma string_append_assoc (a b c : string) : (a ++ b) ++ c = a ++ b ++ c.
Proof.
  induction a as [| x a IH]; simpl; [reflexivity | now rewrite IH].
Qed.

Lemma concat_app_nonempty (sep : string) (a b : list string) :
  a <> [] -> b <> [] ->
  String.concat sep (a ++ b)%list
  = String.concat sep a ++ sep ++ String.concat sep b.
Proof.
  intros Ha Hb. induction a as [| x a IH]; [congruence |].
  destruct a as [| y a].
  - simpl. destruct b; [congruence | reflexivity].
  - change (String.concat sep ((x :: y :: a) ++ b)%list)
      with (x ++ sep ++ String.concat sep ((y :: a) ++ b)%list).
    rewrite IH by discriminate.
    change (String.concat sep (x :: y :: a))
      with (x ++ sep ++ String.concat sep (y :: a)).
    rewrite !string_append_assoc. reflexivity.
Qed.

Lemma joined_texts_app (a b : list string) :
  String.concat " " (a ++ b)%list
  = match a, b with
    | [], _ => String.concat " " b
    | _, [] => String.concat " " a
    | _, _ => String.concat " " a ++ " " ++ String.concat " " b
    end.
Proof.
  destruct a as [| x a]; [reflexivity |].
  destruct b as [| y b]; [now rewrite app_nil_r |].
  apply concat_app_nonempty; discriminate.
Qed.

Lemma well_shaped_of_alice (rt : Runtime) (messages : list PyVal)
    (r : list bytes * string) :
  Alice._extract_images rt messages = Ok r -> well_shaped messages = true.
Proof. intro H. rewrite <- (alice_extract_ok_iff rt), H. reflexivity. Qed.

Lemma well_shaped_of_legal (messages : list PyVal)
    (r : bool * list string * string) :
  LegalVision._has_images messages = Ok r -> well_shaped messages = true.
Proof. intro H. rewrite <- legal_extract_ok_iff, H. reflexivity. Qed.

Lemma well_shaped_app (ms1 ms2 : list PyVal) :
  well_shaped (ms1 ++ ms2)%list = well_shaped ms1 && well_shaped ms2.
Proof. apply forallb_app. Qed.

(** X2. Extraction goes along with putting conversations end to end: when
    two lists of messages are extracted without exception, so is the one
    after the other, its images are the images of the first followed by
    those of the second, and its text is the two texts with one space
    between them, or the text of one list when the other holds no text at
    all. *)
Theorem extraction_of_concatenation (rt : Runtime) (ms1 ms2 : list PyVal) :
  (forall i1 t1 i2 t2,
     Alice._extract_images rt ms1 = Ok (i1, t1) ->
     Alice._extract_images rt ms2 = Ok (i2, t2) ->
     Alice._extract_images rt (ms1 ++ ms2)%list
     = Ok ((i1 ++ i2)%list,
           match flat_map message_texts ms1, flat_map message_texts ms2 with
           | [], _ => t2
           | _, [] => t1
           | _, _ => t1 ++ " " ++ t2
           end))
  /\ (forall f1 i1 t1 f2 i2 t2,
        LegalVision._has_images ms1 = Ok (f1, i1, t1) ->
        LegalVision._has_images ms2 = Ok (f2, i2, t2) ->
        LegalVision._has_images (ms1 ++ ms2)%list
        = Ok (f1 || f2, (i1 ++ i2)%list,
              match flat_map message_texts ms1, flat_map message_texts ms2 with
              | [], _ => t2
              | _, [] => t1
              | _, _ => t1 ++ " " ++ t2
              end)).
Proof.
  split.
  - intros i1 t1 i2 t2 H1 H2.
    pose proof (well_shaped_of_alice _ _ _ H1) as W1.
    pose proof (well_shaped_of_alice _ _ _ H2) as W2.
    rewrite (alice_extract_collect rt _ W1) in H1.
    rewrite (alice_extract_collect rt _ W2) in H2.
    injection H1 as <- <-. injection H2 as <- <-.
    rewrite alice_extract_collect
      by (rewrite well_shaped_app, W1, W2; reflexivity).
    now rewrite !flat_map_app, joined_texts_app.
  - intros f1 i1 t1 f2 i2 t2 H1 H2.
    pose proof (well_shaped_of_legal _ _ H1) as W1.
    pose proof (well_shaped_of_legal _ _ H2) as W2.
    rewrite (legal_extract_collect _ W1) in H1.
    rewrite (legal_extract_collect _ W2) in H2.
    injection H1 as <- <- <-. injection H2 as <- <- <-.
    rewrite legal_extract_collect
      by (rewrite well_shaped_app, W1, W2; reflexivity).
    rewrite !flat_map_app, joined_texts_app.
    now destruct (flat_map legal_message_images ms1).
Qed.

Lemma extraction_of_concatenation_witness :
  Alice._extract_images (Sample.runtime true Sample.healthy)
    ([Sample.parts_message
        [Sample.text_part "See"; Sample.image_part "data:image/png;base64,iWhp"]]
     ++ [Sample.text_message "and answer";
         Sample.parts_message [Sample.image_part "data:image/png;base64,aGk="]])
  = Ok ([[x89; x68; x69]; [x68; x69]], "See and answer").
Proof.
  exact (proj1 (extraction_of_concatenation
                  (Sample.runtime true Sample.healthy)
                  [Sample.parts_message
                     [Sample.text_part "See";
                      Sample.image_part "data:image/png;base64,iWhp"]]
                  [Sample.text_message "and answer";
                   Sample.parts_message
                     [Sample.image_part "data:image/png;base64,aGk="]])
           [[x89; x68; x69]] "See" [[x68; x69]] "and answer" eq_refl eq_refl).
Defined.

Lemma for_each_pointwise {A S} (body : S -> A -> result S) (xs ys : list A) :
  Forall2 (fun x y => forall acc, body acc x = body acc y) xs ys ->
  forall acc, for_each body xs acc = for_each body ys acc.
Proof.
  induction 1 as [| x y xs ys Hxy _ IH]; intro acc; simpl; [reflexivity |].
  rewrite Hxy. destruct (body acc y); simpl; auto.
Qed.

(** X3. The extractors look at nothing of a message but its [content]: two
    conversations whose messages have, one by one, the same content (or fail
    alike to have one) are extracted alike, whatever their roles and other
    keys. *)
Theorem extraction_depends_on_content_only (rt : Runtime)
    (ms1 ms2 : list PyVal) :
  Forall2 (fun m1 m2 =>
             py_get m1 "content" (PStr EmptyString)
             = py_get m2 "content" (PStr EmptyString)) ms1 ms2 ->
  Alice._extract_images rt ms1 = Alice._extract_images rt ms2
  /\ LegalVision._has_images ms1 = LegalVision._has_images ms2.
Proof.
  intro H. split.
  - unfold Alice._extract_images.
    rewrite (for_each_pointwise (Alice.extract_message rt) ms1 ms2);
      [reflexivity |].
    eapply Forall2_impl; [| exact H].
    intros m1 m2 Hm acc. unfold Alice.extract_message. now rewrite Hm.
  - unfold LegalVision._has_images.
    rewrite (for_each_pointwise LegalVision.extract_message ms1 ms2);
      [reflexivity |].
    eapply Forall2_impl; [| exact H].
    intros m1 m2 Hm acc. unfold LegalVision.extract_message. now rewrite Hm.
Qed.

Lemma extraction_depends_on_content_only_witness :
  Alice._extract_images (Sample.runtime true Sample.healthy)
    [PDict [("role", PStr "system"); ("content", PStr "Be brief.")];
     PDict [("role", PStr "assistant")]]
  = Alice._extract_images (Sample.runtime true Sample.healthy)
      [PDict [("content", PStr "Be brief."); ("name", PStr "x")];
       PDict [("content", PStr EmptyString); ("role", PStr "user")]].
Proof.
  apply (extraction_depends_on_content_only
           (Sample.runtime true Sample.healthy)
           [PDict [("role", PStr "system"); ("content", PStr "Be brief.")];
            PDict [("role", PStr "assistant")]]
           [PDict [("content", PStr "Be brief."); ("name", PStr "x")];
            PDict [("content", PStr EmptyString); ("role", PStr "user")]]).
  repeat constructor.
Defined.

Lemma for_each_agree {A}
    (body_a : list bytes * list PyVal -> A -> result (list bytes * list PyVal))
    (body_l : list string * list PyVal -> A -> result (list string * list PyVal)) :
  (forall ia il p x,
     (List.length ia <= List.length il)%nat ->
     agree (body_a (ia, p) x) (body_l (il, p) x)) ->
  forall xs ia il p,
    (List.length ia <= List.length il)%nat ->
    agree (for_each body_a xs (ia, p)) (for_each body_l xs (il, p)).
Proof.
  intros Hbody xs; induction xs as [| x xs IH]; intros ia il p Hlen; simpl.
  - now split.
  - specialize (Hbody ia il p x Hlen).
    destruct (body_a (ia, p) x) as [[ia' pa] | ea],
             (body_l (il, p) x) as [[il' pl] | el]; simpl in *;
      try contradiction.
    + destruct Hbody as [<- Hlen']. now apply IH.
    + exact Hbody.
Qed.

Lemma item_agree (rt : Runtime) (ia : list bytes) (il : list string)
    (p : list PyVal) (item : PyVal) :
  (List.length ia <= List.length il)%nat ->
  agree (Alice.extract_item rt (ia, p) item) (LegalVision.extract_item (il, p) item).
Proof.
  intro Hlen.
  destruct item as [| | | | s | | entries]; simpl; try (now split).
  destruct (eq_str match dict_lookup "type" entries with
                   | Some x => x
                   | None => PNone
                   end "text"); [simpl; now split |].
  destruct (eq_str match dict_lookup "type" entries with
                   | Some x => x
                   | None => PNone
                   end "image_url"); [| simpl; now split].
  destruct (match dict_lookup "image_url" entries with
            | Some x => x
            | None => PDict []
            end) as [| | | | | | inner]; simpl; try reflexivity.
  destruct (match dict_lookup "url" inner with
            | Some x => x
            | None => PStr EmptyString
            end) as [| | | | u | |]; simpl; try reflexivity.
  destruct (startswith "data:image" u); [| simpl; now split].
  rewrite alice_data_uri, legal_data_uri. simpl.
  destruct (after_first comma u) as [payload |]; [| now split].
  split; [reflexivity |].
  destruct (b64decode rt payload); unfold append_item; rewrite ?length_app;
    simpl; lia.
Qed.

Lemma message_agree (rt : Runtime) (ia : list bytes) (il : list string)
    (p : list PyVal) (msg : PyVal) :
  (List.length ia <= List.length il)%nat ->
  agree (Alice.extract_message rt (ia, p) msg)
    (LegalVision.extract_message (il, p) msg).
Proof.
  intro Hlen. unfold Alice.extract_message, LegalVision.extract_message.
  destruct (py_get msg "content" (PStr EmptyString)) as [content | e];
    simpl; [| reflexivity].
  destruct content as [| | | | s | items |]; simpl; try (now split).
  apply for_each_agree; [| exact Hlen].
  intros; now apply item_agree.
Qed.

(** X4. The two extractors agree on every conversation: they raise together,
    and then the same exception; otherwise they return the same text, and
    legal_vision, which keeps the payloads it does not decode, finds at
    least as many images as alice, its flag telling whether it found any. *)
Theorem extractors_agree (rt : Runtime) (messages : list PyVal) :
  match Alice._extract_images rt messages, LegalVision._has_images messages with
  | Ok (ia, ta), Ok (flag, il, tl) =>
      ta = tl
      /\ (List.length ia <= List.length il)%nat
      /\ flag = nonempty il
  | Raise ea, Raise el => ea = el
  | _, _ => False
  end.
Proof.
  unfold Alice._extract_images, LegalVision._has_images.
  pose proof (for_each_agree _ _ (message_agree rt) messages [] [] []
                (Nat.le_refl _)) as H.
  destruct (for_each (Alice.extract_message rt) messages ([], []))
    as [[ia pa] | ea],
    (for_each LegalVision.extract_message messages ([], []))
    as [[il pl] | el]; simpl in *; try contradiction; [| exact H].
  destruct H as [<- Hlen].
  destruct (py_join " " pa) as [t | e]; simpl; [| reflexivity].
  repeat split; [exact Hlen |]. now destruct il.
Qed.

(* ------------------------------------------------------------------ *)
(** ** More on the streaming call *)

Lemma for_eachM_app {S A} (body : A -> ME S unit) (xs ys : list A) (s : S) :
  for_eachM body (xs ++ ys)%list s
  = match for_eachM body xs s with
    | (Ok _, s1, t1) =>
        match for_eachM body ys s1 with
        | (r, s2, t2) => (r, s2, (t1 ++ t2)%list)
        end
    | (Raise e, s1, t1) => (Raise e, s1, t1)
    end.
Proof.
  revert s; induction xs as [| x xs IH]; intro s; simpl.
  - unfold ret. now destruct (for_eachM body ys s) as [[r s2] t2].
  - unfold bind. destruct (body x s) as [[[[] | e] s1] t1]; [| reflexivity].
    rewrite IH.
    destruct (for_eachM body xs s1) as [[[[] | e] s2] t2]; [| reflexivity].
    destruct (for_eachM body ys s2) as [[r s3] t3].
    now rewrite app_assoc.
Qed.

Lemma forward_line_harmless {S} (rt : Runtime) (line : string) (s : S) :
  harmless_line rt line = true ->
  forward_line rt line s = (Ok tt, s, map Yield (line_fragment rt line)).
Proof.
  unfold harmless_line, forward_line, line_fragment.
  destruct line as [| c line']; [reflexivity |].
  unfold try_exceptM, bind, lift, ret, yield, emit.
  destruct (json_loads rt (String c line')) as [data | e].
  - destruct data as [| | | | | | entries]; try discriminate. intros _.
    simpl. now destruct (dict_lookup "response" entries).
  - intro H. unfold caught_by. simpl. now rewrite H.
Qed.

Lemma forward_lines_harmless {S} (rt : Runtime) (lines : list string) (s : S) :
  forallb (harmless_line rt) lines = true ->
  for_eachM (forward_line rt) lines s
  = (Ok tt, s, map Yield (flat_map (line_fragment rt) lines)).
Proof.
  induction lines as [| line lines IH]; simpl; intro H; [reflexivity |].
  apply andb_true_iff in H as [Hl Hls].
  unfold bind. rewrite (forward_line_harmless rt line s Hl), (IH Hls).
  now rewrite map_app.
Qed.

Lemma forward_line_breaks (rt : Runtime) (line : string) (data : PyVal) :
  line <> EmptyString ->
  json_loads rt line = Ok data ->
  breaks_stream data = true ->
  exists e,
    exn_cls e = TypeError
    /\ forall S (s : S), forward_line rt line s = (Raise e, s, []).
Proof.
  intros Hne Hjson Hbreak. unfold forward_line.
  destruct line as [| c line']; [congruence |].
  unfold try_exceptM, bind, lift, ret, yield, emit. rewrite Hjson.
  destruct data as [| | | | str | items | entries]; simpl in *;
    try discriminate; rewrite ?Hbreak;
    (eexists; split; [| intros S s; reflexivity]; reflexivity).
Qed.

(** The [try] of a streaming call once the response is there: what the loop
    over the lines yields, and the error fragment when the loop ends with
    an exception. *)
Lemma streaming_try_exact {S} (rt : Runtime) (req : request) (model : string)
    (s : S) (r : response) (res : result unit) (t : list event) :
  requests_post rt req = Ok r ->
  raise_for_status r = Ok tt ->
  iter_lines_loop rt r s = (res, s, t) ->
  try_exceptM
    (emit (HttpPost req) ;;;
     response <~ lift (requests_post rt req) ;;
     lift (raise_for_status response) ;;;
     iter_lines_loop rt response)
    [Exception]
    (fun e => yield (error_fragment model e)) s
  = (Ok tt, s,
     HttpPost req
     :: (t ++ match res with
              | Ok _ => []
              | Raise e => [Yield (error_fragment model e)]
              end)%list).
Proof.
  intros Hpost Hstatus Hloop.
  unfold try_exceptM, bind, emit, lift, yield.
  rewrite Hpost, Hstatus, Hloop. simpl.
  destruct res as [[] | e]; simpl; now rewrite ?app_nil_r.
Qed.

Lemma run_call_exact (rt : Runtime) (c : streaming_call) (r : response)
    (res : result unit) (frags : list PyVal) :
  requests_post rt (call_request c) = Ok r ->
  raise_for_status r = Ok tt ->
  (forall S (s : S), iter_lines_loop rt r s = (res, s, map Yield frags)) ->
  run_call rt c
  = (Ok tt,
     HttpPost (call_request c)
     :: (map Yield frags
         ++ match res with
            | Ok _ => []
            | Raise e => [Yield (error_fragment (call_model c) e)]
            end)%list).
Proof.
  intros Hpost Hstatus Hloop.
  destruct c as [self prompt | self model prompt images];
    unfold run_call, call_request, call_model in *.
  - rewrite alice_stream_unfold.
    now rewrite (streaming_try_exact rt _ _ self r res _ Hpost Hstatus
                   (Hloop _ self)).
  - rewrite legal_stream_unfold.
    now rewrite (streaming_try_exact rt _ _ self r res _ Hpost Hstatus
                   (Hloop _ self)).
Qed.

(** X5. When the transport holds and every line of the answer is empty, a
    JSON object, or not JSON at all, a streaming call yields the [response]
    fields of the objects that have one, in the order of arrival, and
    nothing else: empty lines, objects without the field and lines that are
    not JSON are passed over without ending the stream. *)
Theorem stream_forwards_fragments_in_order (rt : Runtime) (c : streaming_call)
    (r : response) :
  clean_response rt (call_request c) r ->
  forallb (harmless_line rt) (resp_lines r) = true ->
  run_call rt c
  = (Ok tt,
     HttpPost (call_request c)
     :: map Yield (flat_map (line_fragment rt) (resp_lines r))).
Proof.
  intros (Hpost & Hstatus & Hexn) Hlines.
  rewrite (run_call_exact rt c r (Ok tt)
             (flat_map (line_fragment rt) (resp_lines r)) Hpost Hstatus).
  - now rewrite app_nil_r.
  - intros S s. unfold iter_lines_loop, bind.
    rewrite (forward_lines_harmless rt _ s Hlines), Hexn. simpl.
    now rewrite app_nil_r.
Qed.

Lemma stream_forwards_fragments_in_order_witness :
  run_call
    (Sample.runtime true
       (streaming [Sample.response_line "Hi"; EmptyString; "data: ping";
                   Sample.done_line; Sample.response_line " there"]))
    (AliceStream Alice.__init__ "Q")
  = (Ok tt,
     [HttpPost (Alice.stream_request Alice.default_valves "Q");
      Yield (PStr "Hi"); Yield (PStr " there")]).
Proof.
  apply (stream_forwards_fragments_in_order
           (Sample.runtime true
              (streaming [Sample.response_line "Hi"; EmptyString; "data: ping";
                          Sample.done_line; Sample.response_line " there"]))
           (AliceStream Alice.__init__ "Q")
           (Sample.ok_response
              [Sample.response_line "Hi"; EmptyString; "data: ping";
               Sample.done_line; Sample.response_line " there"] (Ok PNone))).
  - repeat split.
  - reflexivity.
Defined.

(** X6. A line that is JSON but not an object (a number, [null], a boolean,
    a string that contains [response], a list that holds it) ends the
    stream: the fragments of the lines before it are followed by one error
    fragment made from a [TypeError], nothing of the lines after it is
    forwarded, and the call still ends without an exception. *)
Theorem stream_stops_at_non_object_line (rt : Runtime) (c : streaming_call)
    (r : response) (before after : list string) (line : string)
    (data : PyVal) :
  requests_post rt (call_request c) = Ok r ->
  raise_for_status r = Ok tt ->
  resp_lines r = (before ++ line :: after)%list ->
  forallb (harmless_line rt) before = true ->
  line <> EmptyString ->
  json_loads rt line = Ok data ->
  breaks_stream data = true ->
  exists e,
    exn_cls e = TypeError
    /\ run_call rt c
       = (Ok tt,
          HttpPost (call_request c)
          :: (map Yield (flat_map (line_fragment rt) before)
              ++ [Yield (error_fragment (call_model c) e)])%list).
Proof.
  intros Hpost Hstatus Hlines Hbefore Hne Hjson Hbreak.
  destruct (forward_line_breaks rt line data Hne Hjson Hbreak)
    as (e & Hcls & Hline).
  exists e. split; [exact Hcls |].
  apply (run_call_exact rt c r (Raise e)
           (flat_map (line_fragment rt) before) Hpost Hstatus).
  intros S s. unfold iter_lines_loop, bind.
  rewrite Hlines, for_eachM_app, (forward_lines_harmless rt before s Hbefore).
  cbn [for_eachM]. unfold bind. rewrite Hline. now rewrite app_nil_r.
Qed.

Lemma stream_stops_at_non_object_line_witness :
  exists e,
    exn_cls e = TypeError
    /\ run_call
         (Sample.runtime true
            (streaming [Sample.response_line "Hi"; "7";
                        Sample.response_line " there"]))
         (LegalStream LegalVision.__init__ "deepseek-r1:8b" "Q" None)
       = (Ok tt,
          HttpPost
            (call_request
               (LegalStream LegalVision.__init__ "deepseek-r1:8b" "Q" None))
          :: (map Yield
                (flat_map
                   (line_fragment
                      (Sample.runtime true
                         (streaming [Sample.response_line "Hi"; "7";
                                     Sample.response_line " there"])))
                   [Sample.response_line "Hi"])
              ++ [Yield (error_fragment "deepseek-r1:8b" e)])%list).
Proof.
  apply (stream_stops_at_non_object_line
           (Sample.runtime true
              (streaming [Sample.response_line "Hi"; "7";
                          Sample.response_line " there"]))
           (LegalStream LegalVision.__init__ "deepseek-r1:8b" "Q" None)
           (Sample.ok_response
              [Sample.response_line "Hi"; "7"; Sample.response_line " there"]
              (Ok PNone))
           [Sample.response_line "Hi"] [Sample.response_line " there"]
           "7" (PInt 7));
    try reflexivity.
  discriminate.
Defined.

(* ------------------------------------------------------------------ *)
(** ** More on the dispatch *)


Lemma yields_app (t1 t2 : list event) :
  yields (t1 ++ t2)%list = (yields t1 ++ yields t2)%list.
Proof. apply flat_map_app. Qed.






Lemma legal_sync_request_fails (rt : Runtime) (model prompt : string)
    (images : option (list string)) (self : LegalVision.Pipeline) (e : exn) :
  requests_post rt
    (LegalVision.make_request (LegalVision.valves self) model prompt images
       false false) = Raise e ->
  LegalVision._call_ollama_sync rt model prompt images self
  = (Ok (error_fragment model e), self,
     [HttpPost (LegalVision.make_request (LegalVision.valves self) model
                  prompt images false false)]).
Proof.
  intro H.
  unfold LegalVision._call_ollama_sync, try_exceptM, bind, get, emit, lift, ret.
  now rewrite H.
Qed.

(** X9. A failure of the vision model does not stop the legal_vision
    pipeline: when the request to the vision model raises, the text
    [Error calling <vision model>: <message>] takes the place of the
    description, in the fragment shown to the user and in the prompt of the
    reasoning request, which is sent all the same. *)
Theorem vision_failure_reaches_reasoning_prompt (rt : Runtime)
    (user_message : PyVal) (model_id : string) (messages : list PyVal)
    (body : PyVal) (self : LegalVision.Pipeline) (flag : bool)
    (images : list string) (text : string) (e : exn) :
  LegalVision._has_images messages = Ok (flag, images, text) ->
  images <> [] ->
  requests_post rt
    (LegalVision.make_request (LegalVision.valves self)
       (LegalVision.VISION_MODEL (LegalVision.valves self))
       (LegalVision.vision_prompt
          (fmt rt (if truthy user_message then user_message else PStr text)))
       (Some images) false false) = Raise e ->
  let failure :=
    "Error calling " ++ LegalVision.VISION_MODEL (LegalVision.valves self)
    ++ ": " ++ exn_msg e in
  exists frags,
    yields (trace_of
              (LegalVision.pipe rt user_message model_id messages body self))
    = ([PStr LegalVision.analyzing_header;
        PStr (LegalVision.analysis_fragment failure);
        PStr LegalVision.processing_header] ++ frags)%list
    /\ posts (trace_of
                (LegalVision.pipe rt user_message model_id messages body self))
       = [LegalVision.make_request (LegalVision.valves self)
            (LegalVision.VISION_MODEL (LegalVision.valves self))
            (LegalVision.vision_prompt
               (fmt rt (if truthy user_message then user_message
                        else PStr text)))
            (Some images) false false;
          LegalVision.make_request (LegalVision.valves self)
            (LegalVision.REASONING_MODEL (LegalVision.valves self))
            (LegalVision.image_prompt failure
               (fmt rt (if truthy user_message then user_message
                        else PStr LegalVision.fallback_question)))
            None true true].
Proof.
  intros H Hne Hpost failure. subst failure.
  destruct (legal_pipe_images_exact rt user_message model_id _ body self _ _ _
              _ H Hne (legal_sync_request_fails rt _ _ _ self e Hpost))
    as (frags & E).
  exists frags. rewrite E. unfold trace_of. cbn [snd].
  rewrite yields_app, posts_app, yields_of_fragments, posts_of_fragments.
  split; reflexivity.
Qed.

Lemma vision_failure_reaches_reasoning_prompt_witness :
  exists frags,
    yields (trace_of
              (LegalVision.pipe (Sample.runtime true vision_down)
                 (PStr "pick the best answer") "legal"
                 [Sample.parts_message
                    [Sample.image_part "data:image/png;base64,iWhp"]]
                 (PDict []) LegalVision.__init__))
    = ([PStr LegalVision.analyzing_header;
        PStr (LegalVision.analysis_fragment
                "Error calling llava:13b: Connection refused");
        PStr LegalVision.processing_header] ++ frags)%list.
Proof.
  destruct (vision_failure_reaches_reasoning_prompt
              (Sample.runtime true vision_down)
              (PStr "pick the best answer") "legal"
              [Sample.parts_message
                 [Sample.image_part "data:image/png;base64,iWhp"]]
              (PDict []) LegalVision.__init__ true ["iWhp"] EmptyString
              (MkExn RequestException "Connection refused")
              eq_refl ltac:(discriminate) eq_refl)
    as (frags & Hy & _).
  exists frags. exact Hy.
Defined.

(** The requests of the alice pipeline: none, or one streaming request. *)
Lemma alice_pipe_posts (rt : Runtime) (user_message : PyVal)
    (model_id : string) (messages : list PyVal) (body : PyVal)
    (self : Alice.Pipeline) :
  posts (trace_of (Alice.pipe rt user_message model_id messages body self)) = []
  \/ exists prompt,
       posts (trace_of (Alice.pipe rt user_message model_id messages body self))
       = [Alice.stream_request (Alice.valves self) prompt].
Proof.
  destruct (Alice._extract_images rt messages) as [[images text] | e] eqn:E.
  - right. destruct images as [| image images].
    + rewrite (alice_pipe_no_images rt user_message model_id _ body self _ E).
      destruct (alice_stream_out rt (Alice.bare_prompt (fmt rt user_message))
                  self) as (frags & ->).
      eexists. unfold trace_of. cbn [snd posts flat_map app].
      fold (posts (map Yield frags)). now rewrite posts_of_fragments.
    + destruct (alice_pipe_images rt user_message model_id _ body self _ _ E
                  ltac:(discriminate)) as (frags & ->).
      eexists. unfold trace_of. cbn [snd].
      change (Yield (PStr Alice.reading_header) :: ?l)
        with ([Yield (PStr Alice.reading_header)] ++ l)%list.
      rewrite !posts_app, posts_of_ocr_events, posts_of_fragments.
      reflexivity.
  - left. now rewrite (alice_pipe_raises rt user_message model_id _ body self _ E).
Qed.

(** The requests of the legal_vision pipeline: none, one streaming request,
    or a non-streaming request with images and then a streaming one. *)
Lemma legal_pipe_posts (rt : Runtime) (user_message : PyVal)
    (model_id : string) (messages : list PyVal) (body : PyVal)
    (self : LegalVision.Pipeline) :
  posts (trace_of (LegalVision.pipe rt user_message model_id messages body self))
  = []
  \/ (exists prompt,
        posts (trace_of
                 (LegalVision.pipe rt user_message model_id messages body self))
        = [LegalVision.make_request (LegalVision.valves self)
             (LegalVision.REASONING_MODEL (LegalVision.valves self))
             prompt None true true])
  \/ (exists vision images prompt,
        posts (trace_of
                 (LegalVision.pipe rt user_message model_id messages body self))
        = [LegalVision.make_request (LegalVision.valves self)
             (LegalVision.VISION_MODEL (LegalVision.valves self))
             vision (Some images) false false;
           LegalVision.make_request (LegalVision.valves self)
             (LegalVision.REASONING_MODEL (LegalVision.valves self))
             prompt None true true]).
Proof.
  destruct (LegalVision._has_images messages)
    as [[[flag images] text] | e] eqn:E.
  - right. destruct images as [| image images].
    + left.
      rewrite (legal_pipe_no_images rt user_message model_id _ body self _ _ E).
      destruct (legal_stream_out rt
                  (LegalVision.REASONING_MODEL (LegalVision.valves self))
                  (LegalVision.bare_prompt (fmt rt user_message)) None self)
        as (frags & ->).
      eexists. unfold trace_of. cbn [snd posts flat_map app].
      fold (posts (map Yield frags)). now rewrite posts_of_fragments.
    + right.
      destruct (legal_pipe_images rt user_message model_id _ body self _ _ _
                  E ltac:(discriminate)) as (description & frags & ->).
      eexists. eexists. eexists. unfold trace_of. cbn [snd].
      rewrite posts_app, posts_of_fragments. reflexivity.
  - left. now rewrite (legal_pipe_raises rt user_message model_id _ body self _ E).
Qed.

(** X10. Whatever the conversation and the backend, every request a
    pipeline sends goes to [<OLLAMA_HOST>/api/generate] with a timeout of
    300 seconds, carries the temperature of the valves, names a model of
    the valves and asks the transport to stream exactly when the payload
    does; alice sends at most one request and legal_vision at most two. *)
Theorem requests_follow_valves (rt : Runtime) (user_message : PyVal)
    (model_id : string) (messages : list PyVal) (body : PyVal)
    (alice : Alice.Pipeline) (legal : LegalVision.Pipeline) :
  Forall (request_ok (Alice.OLLAMA_HOST (Alice.valves alice))
            (Alice.TEMPERATURE (Alice.valves alice))
            [Alice.REASONING_MODEL (Alice.valves alice)])
    (posts (trace_of (Alice.pipe rt user_message model_id messages body alice)))
  /\ (List.length
        (posts (trace_of
                  (Alice.pipe rt user_message model_id messages body alice)))
      <= 1)%nat
  /\ Forall (request_ok (LegalVision.OLLAMA_HOST (LegalVision.valves legal))
               (LegalVision.TEMPERATURE (LegalVision.valves legal))
               [LegalVision.VISION_MODEL (LegalVision.valves legal);
                LegalVision.REASONING_MODEL (LegalVision.valves legal)])
       (posts (trace_of
                 (LegalVision.pipe rt user_message model_id messages body legal)))
  /\ (List.length
        (posts (trace_of
                  (LegalVision.pipe rt user_message model_id messages body
                     legal)))
      <= 2)%nat.
Proof.
  destruct (alice_pipe_posts rt user_message model_id messages body alice)
    as [-> | (prompt & ->)];
    destruct (legal_pipe_posts rt user_message model_id messages body legal)
      as [-> | [(p & ->) | (v & images & p & ->)]];
    repeat match goal with
           | |- _ /\ _ => split
           | |- Forall _ [] => constructor
           | |- Forall _ (_ :: _) => constructor
           | |- request_ok _ _ _ _ =>
               unfold request_ok; simpl; repeat split; auto
           | |- (_ <= _)%nat => simpl; lia
           end.
Qed.

(** X11. A non-streaming call whose request goes through but whose body is
    not a JSON object (the body is not JSON, or it is a list, a string, a
    number, [null]) gives the error text
    [Error calling <model>: <message>], returned by [_call_ollama_sync] and
    yielded by [_call_ollama] with [stream=False]; for a body that is JSON
    the message is that of the [AttributeError] of [.get]. Nothing is
    raised and one request is sent. *)
Theorem non_object_body_is_an_error (rt : Runtime) (model prompt : string)
    (images : option (list string)) (self : LegalVision.Pipeline)
    (r : response) :
  requests_post rt
    (LegalVision.make_request (LegalVision.valves self) model prompt images
       false false) = Ok r ->
  raise_for_status r = Ok tt ->
  match resp_json r with Ok (PDict _) => False | _ => True end ->
  exists e,
    LegalVision._call_ollama_sync rt model prompt images self
    = (Ok (error_fragment model e), self,
       [HttpPost (LegalVision.make_request (LegalVision.valves self) model
                    prompt images false false)])
    /\ LegalVision._call_ollama rt model prompt images false self
       = (Ok tt, self,
          [HttpPost (LegalVision.make_request (LegalVision.valves self) model
                       prompt images false false);
           Yield (error_fragment model e)])
    /\ (forall data, resp_json r = Ok data -> exn_cls e = AttributeError)
    /\ (forall e', resp_json r = Raise e' -> e = e').
Proof.
  intros Hpost Hstatus Hbody.
  unfold LegalVision._call_ollama_sync, LegalVision._call_ollama,
    try_exceptM, bind, get, emit, lift, ret, yield.
  rewrite Hpost, Hstatus.
  destruct (resp_json r) as [data | e'].
  - destruct data; try contradiction;
      (eexists; split; [reflexivity |]; split; [reflexivity |];
       split; [intros; reflexivity | discriminate]).
  - exists e'. split; [reflexivity |]. split; [reflexivity |].
    split; [discriminate | now intros e2 [= ->]].
Qed.

Lemma non_object_body_is_an_error_witness :
  exists e,
    LegalVision._call_ollama_sync
      (Sample.runtime true (answering (Ok (PList [PStr "response"]))))
      "llava:13b" "Describe" (Some ["iWhp"]) LegalVision.__init__
    = (Ok (error_fragment "llava:13b" e), LegalVision.__init__,
       [HttpPost (LegalVision.make_request LegalVision.default_valves
                    "llava:13b" "Describe" (Some ["iWhp"]) false false)])
    /\ exn_cls e = AttributeError.
Proof.
  destruct (non_object_body_is_an_error
              (Sample.runtime true (answering (Ok (PList [PStr "response"]))))
              "llava:13b" "Describe" (Some ["iWhp"]) LegalVision.__init__
              (Sample.ok_response [] (Ok (PList [PStr "response"])))
              eq_refl eq_refl I)
    as (e & Hsync & _ & Hcls & _).
  exists e. split; [exact Hsync | exact (Hcls _ eq_refl)].
Defined.

(** X12. The text gathered from the conversation plays no part in alice:
    two conversations with the same images give the same run, whatever
    their texts, [model_id] and [body]. In legal_vision this holds when the
    message of the user is truthy; the gathered text is used only in its
    place, in the prompt of the vision model. *)
Theorem gathered_text_is_not_used (rt : Runtime) (user_message : PyVal)
    (id1 id2 : string) (ms1 ms2 : list PyVal) (body1 body2 : PyVal) :
  (forall (self : Alice.Pipeline) images t1 t2,
     Alice._extract_images rt ms1 = Ok (images, t1) ->
     Alice._extract_images rt ms2 = Ok (images, t2) ->
     Alice.pipe rt user_message id1 ms1 body1 self
     = Alice.pipe rt user_message id2 ms2 body2 self)
  /\ (forall (self : LegalVision.Pipeline) f1 f2 images t1 t2,
        truthy user_message = true ->
        LegalVision._has_images ms1 = Ok (f1, images, t1) ->
        LegalVision._has_images ms2 = Ok (f2, images, t2) ->
        LegalVision.pipe rt user_message id1 ms1 body1 self
        = LegalVision.pipe rt user_message id2 ms2 body2 self).
Proof.
  split.
  - intros self images t1 t2 H1 H2.
    unfold Alice.pipe, bind at 1 3, lift. now rewrite H1, H2.
  - intros self f1 f2 images t1 t2 Hum H1 H2.
    pose proof (legal_flag _ _ _ _ H1) as ->.
    pose proof (legal_flag _ _ _ _ H2) as ->.
    unfold LegalVision.pipe, bind at 1 3, lift. rewrite H1, H2, Hum.
    reflexivity.
Qed.

Lemma gathered_text_is_not_used_witness :
  Alice.pipe (Sample.runtime true Sample.healthy) (PStr "Which one?") "a"
    [Sample.text_message "Earlier talk";
     Sample.parts_message
       [Sample.text_part "Look"; Sample.image_part "data:image/png;base64,iWhp"]]
    (PDict []) Alice.__init__
  = Alice.pipe (Sample.runtime true Sample.healthy) (PStr "Which one?") "b"
      [Sample.parts_message [Sample.image_part "data:image/png;base64,iWhp"]]
      (PDict [("stream", PBool true)]) Alice.__init__.
Proof.
  exact (proj1 (gathered_text_is_not_used
                  (Sample.runtime true Sample.healthy) (PStr "Which one?")
                  "a" "b"
                  [Sample.text_message "Earlier talk";
                   Sample.parts_message
                     [Sample.text_part "Look";
                      Sample.image_part "data:image/png;base64,iWhp"]]
                  [Sample.parts_message
                     [Sample.image_part "data:image/png;base64,iWhp"]]
                  (PDict []) (PDict [("stream", PBool true)]))
           Alice.__init__ [[x89; x68; x69]] "Earlier talk Look" EmptyString
           eq_refl eq_refl).
Defined.

Lemma for_each_raise {A S} (body : S -> A -> result S) (P : exn -> Prop) :
  (forall acc x e, body acc x = Raise e -> P e) ->
  forall xs acc e, for_each body xs acc = Raise e -> P e.
Proof.
  intros Hbody xs; induction xs as [| x xs IH]; intros acc e; simpl;
    [discriminate |].
  destruct (body acc x) as [acc' | e'] eqn:E; simpl.
  - apply IH.
  - intros [= <-]. exact (Hbody _ _ _ E).
Qed.

Lemma alice_item_raise (rt : Runtime) (acc : list bytes * list PyVal)
    (item : PyVal) (e : exn) :
  Alice.extract_item rt acc item = Raise e -> exn_cls e = AttributeError.
Proof.
  destruct acc as [images text_parts].
  destruct item as [| | | | s | | entries]; simpl; try discriminate.
  destruct (eq_str _ "text"); [discriminate |].
  destruct (eq_str _ "image_url"); [| discriminate].
  destruct (match dict_lookup "image_url" entries with
            | Some x => x
            | None => PDict []
            end) as [| | | | | | inner]; simpl;
    try (now intros [= <-]).
  destruct (match dict_lookup "url" inner with
            | Some x => x
            | None => PStr EmptyString
            end) as [| | | | u | |]; simpl;
    try (now intros [= <-]).
  destruct (startswith "data:image" u); [| discriminate].
  rewrite alice_data_uri. discriminate.
Qed.

Lemma legal_item_raise (acc : list string * list PyVal) (item : PyVal)
    (e : exn) :
  LegalVision.extract_item acc item = Raise e -> exn_cls e = AttributeError.
Proof.
  destruct acc as [images text_parts].
  destruct item as [| | | | s | | entries]; simpl; try discriminate.
  destruct (eq_str _ "text"); [discriminate |].
  destruct (eq_str _ "image_url"); [| discriminate].
  destruct (match dict_lookup "image_url" entries with
            | Some x => x
            | None => PDict []
            end) as [| | | | | | inner]; simpl;
    try (now intros [= <-]).
  destruct (match dict_lookup "url" inner with
            | Some x => x
            | None => PStr EmptyString
            end) as [| | | | u | |]; simpl;
    try (now intros [= <-]).
  destruct (startswith "data:image" u); [| discriminate].
  rewrite legal_data_uri. discriminate.
Qed.

Lemma strs_of_from_raise (i : nat) (parts : list PyVal) (e : exn) :
  strs_of_from i parts = Raise e -> exn_cls e = TypeError.
Proof.
  revert i; induction parts as [| v parts IH]; intro i; simpl; [discriminate |].
  destruct v; try (now intros [= <-]).
  destruct (strs_of_from (S i) parts) eqn:E; simpl; [discriminate |].
  intros [= <-]. exact (IH _ E).
Qed.

Lemma strs_of_raise (parts : list PyVal) (e : exn) :
  strs_of parts = Raise e -> exn_cls e = TypeError.
Proof. apply strs_of_from_raise. Qed.

Lemma alice_extract_raise (rt : Runtime) (messages : list PyVal) (e : exn) :
  Alice._extract_images rt messages = Raise e ->
  exn_cls e = AttributeError \/ exn_cls e = TypeError.
Proof.
  unfold Alice._extract_images.
  destruct (for_each (Alice.extract_message rt) messages ([], []))
    as [acc | e'] eqn:E; simpl.
  - unfold py_join. destruct (strs_of (snd acc)) eqn:Es; simpl;
      [discriminate |].
    intros [= <-]. right. exact (strs_of_raise _ _ Es).
  - intros [= <-]. left.
    refine (for_each_raise (Alice.extract_message rt)
              (fun e => exn_cls e = AttributeError) _ _ _ _ E).
    intros acc msg e0. unfold Alice.extract_message.
    destruct msg as [| | | | | | entries]; simpl; try (now intros [= <-]).
    destruct (match dict_lookup "content" entries with
              | Some x => x
              | None => PStr EmptyString
              end) as [| | | | s | items |]; try discriminate.
    apply (for_each_raise (Alice.extract_item rt)
             (fun e => exn_cls e = AttributeError) (alice_item_raise rt)).
Qed.

Lemma legal_extract_raise (messages : list PyVal) (e : exn) :
  LegalVision._has_images messages = Raise e ->
  exn_cls e = AttributeError \/ exn_cls e = TypeError.
Proof.
  unfold LegalVision._has_images.
  destruct (for_each LegalVision.extract_message messages ([], []))
    as [acc | e'] eqn:E; simpl.
  - unfold py_join. destruct (strs_of (snd acc)) eqn:Es; simpl;
      [discriminate |].
    intros [= <-]. right. exact (strs_of_raise _ _ Es).
  - intros [= <-]. left.
    refine (for_each_raise LegalVision.extract_message
              (fun e => exn_cls e = AttributeError) _ _ _ _ E).
    intros acc msg e0. unfold LegalVision.extract_message.
    destruct msg as [| | | | | | entries]; simpl; try (now intros [= <-]).
    destruct (match dict_lookup "content" entries with
              | Some x => x
              | None => PStr EmptyString
              end) as [| | | | s | items |]; try discriminate.
    apply (for_each_raise LegalVision.extract_item
             (fun e => exn_cls e = AttributeError) legal_item_raise).
Qed.

(** X13. An exception leaves [pipe] only from the extractor, hence before
    anything is yielded and before any request or OCR run, and it is an
    [AttributeError] (a [.get] or [.startswith] on a value of the wrong
    kind) or the [TypeError] of the final [join] (a [text] that is not a
    string); the pipeline object is left as it was. *)
Theorem exceptions_come_first (rt : Runtime) (user_message : PyVal)
    (model_id : string) (messages : list PyVal) (body : PyVal)
    (alice : Alice.Pipeline) (legal : LegalVision.Pipeline) (e : exn) :
  (result_of (Alice.pipe rt user_message model_id messages body alice) = Raise e ->
   Alice.pipe rt user_message model_id messages body alice = (Raise e, alice, [])
   /\ Alice._extract_images rt messages = Raise e
   /\ (exn_cls e = AttributeError \/ exn_cls e = TypeError))
  /\ (result_of (LegalVision.pipe rt user_message model_id messages body legal)
      = Raise e ->
      LegalVision.pipe rt user_message model_id messages body legal
      = (Raise e, legal, [])
      /\ LegalVision._has_images messages = Raise e
      /\ (exn_cls e = AttributeError \/ exn_cls e = TypeError)).
Proof.
  split.
  - destruct (Alice._extract_images rt messages) as [[images text] | e'] eqn:E.
    + destruct images as [| image images].
      * rewrite (alice_pipe_no_images rt user_message model_id _ body alice _ E).
        destruct (alice_stream_out rt (Alice.bare_prompt (fmt rt user_message))
                    alice) as (frags & ->).
        discriminate.
      * destruct (alice_pipe_images rt user_message model_id _ body alice _ _ E
                    ltac:(discriminate)) as (frags & ->).
        discriminate.
    + rewrite (alice_pipe_raises rt user_message model_id _ body alice _ E).
      intros [= ->]. repeat split. exact (alice_extract_raise rt _ _ E).
  - destruct (LegalVision._has_images messages)
      as [[[flag images] text] | e'] eqn:E.
    + destruct images as [| image images].
      * rewrite (legal_pipe_no_images rt user_message model_id _ body legal _ _ E).
        destruct (legal_stream_out rt
                    (LegalVision.REASONING_MODEL (LegalVision.valves legal))
                    (LegalVision.bare_prompt (fmt rt user_message)) None legal)
          as (frags & ->).
        discriminate.
      * destruct (legal_pipe_images rt user_message model_id _ body legal _ _ _
                    E ltac:(discriminate)) as (description & frags & ->).
        discriminate.
    + rewrite (legal_pipe_raises rt user_message model_id _ body legal _ E).
      intros [= ->]. repeat split. exact (legal_extract_raise _ _ E).
Qed.

Lemma exceptions_come_first_witness :
  LegalVision.pipe (Sample.runtime true Sample.healthy) (PStr "Q") "legal"
    [Sample.text_message "fine";
     Sample.parts_message
       [Sample.image_part "data:image/png;base64,iWhp";
        PDict [("type", PStr "text"); ("text", PNone)]]]
    (PDict []) LegalVision.__init__
  = (Raise (MkExn TypeError
              "sequence item 1: expected str instance, NoneType found"),
     LegalVision.__init__, []).
Proof.
  exact (proj1 (proj2 (exceptions_come_first
                         (Sample.runtime true Sample.healthy) (PStr "Q")
                         "legal"
                         [Sample.text_message "fine";
                          Sample.parts_message
                            [Sample.image_part "data:image/png;base64,iWhp";
                             PDict [("type", PStr "text"); ("text", PNone)]]]
                         (PDict []) Alice.__init__ LegalVision.__init__
                         (MkExn TypeError
                            "sequence item 1: expected str instance, NoneType found"))
                  eq_refl)).
Defined.

(** [strip] takes the white space of Unicode off both ends, not only that
    of ASCII: here a no-break space (C2 A0) in front and an em space
    (E2 80 83) and a newline behind; a zero-width space (E2 80 8B) is not
    white space and stays. *)
Example strip_unicode_white_space :
  strip (String (ascii_of_nat 194) (String (ascii_of_nat 160) " Answer: B")
         ++ String (ascii_of_nat 226)
              (String (ascii_of_nat 128) (String (ascii_of_nat 131) nl)))
  = "Answer: B"
  /\ strip (String (ascii_of_nat 226)
              (String (ascii_of_nat 128) (String (ascii_of_nat 139) "B ")))
     = String (ascii_of_nat 226)
         (String (ascii_of_nat 128) (String (ascii_of_nat 139) "B")).
Proof. split; reflexivity. Qed.
